(** * Google Calendar MCP server: a shallow embedding of calendar_mcp_server.py

    The six tools of the server and the credential step are embedded as
    functions in a state-and-exception monad.  The collaborators the source
    calls but does not define (google-auth, the generated API client, the
    clock, the user behind the consent screen) are fields of an environment
    record, so every theorem holds for every behaviour they may have. *)

From Stdlib Require Import List String ZArith Bool.
Import ListNotations.
Open Scope string_scope.
Open Scope list_scope.

(** ** Values: what [json] parsing of a provider reply yields *)

#[warnings="-register-all"]
Inductive json : Type :=
| JNull
| JBool (b : bool)
| JNum (n : Z)
| JStr (s : string)
| JList (items : list json)
| JObj (fields : list (string * json)).

(** ** Exceptions the source can meet *)

Inductive exn : Type :=
| HttpError (detail : string)       (* googleapiclient.errors.HttpError; [detail] is str(error) *)
| KeyError (key : string)           (* d[k] on a dict without k *)
| TypeError                         (* subscripting or iterating the wrong kind of value *)
| AttributeError                    (* .get on a value that is not a dict *)
| ExternalError (name : string).    (* any other class raised by a collaborator *)

Inductive result (A : Type) : Type :=
| Ok (a : A)
| Raise (e : exn).
Arguments Ok {A} a.
Arguments Raise {A} e.

Definition is_HttpError (e : exn) : bool :=
  match e with HttpError _ => true | _ => false end.

(** ** Pure fragment: the error monad of expression evaluation *)

Module Pure.

Definition ret {A} (a : A) : result A := Ok a.

Definition bind {A B} (m : result A) (k : A -> result B) : result B :=
  match m with
  | Ok a => k a
  | Raise e => Raise e
  end.

(** A list comprehension or for loop whose body may raise: left to right,
    stopping at the first exception. *)
Fixpoint for_each {A B} (body : A -> result B) (xs : list A) : result (list B) :=
  match xs with
  | [] => Ok []
  | x :: rest =>
      match body x with
      | Raise e => Raise e
      | Ok y =>
          match for_each body rest with
          | Raise e => Raise e
          | Ok ys => Ok (y :: ys)
          end
      end
  end.

End Pure.

Declare Scope pure_scope.
Delimit Scope pure_scope with pure.
Notation "x <- m ;; k" := (Pure.bind m (fun x => k))
  (at level 61, m at next level, right associativity) : pure_scope.

(** ** Python's operations on parsed JSON *)

Module Py.

Fixpoint lookup (k : string) (fields : list (string * json)) : option json :=
  match fields with
  | [] => None
  | (k', v) :: rest => if String.eqb k k' then Some v else lookup k rest
  end.

(** [d.get(k, default)]; [d.get(k)] is [get d k JNull]. *)
Definition get (d : json) (k : string) (default : json) : result json :=
  match d with
  | JObj fields =>
      match lookup k fields with
      | Some v => Ok v
      | None => Ok default
      end
  | _ => Raise AttributeError
  end.

(** [d[k]] with a string key. *)
Definition getitem (d : json) (k : string) : result json :=
  match d with
  | JObj fields =>
      match lookup k fields with
      | Some v => Ok v
      | None => Raise (KeyError k)
      end
  | _ => Raise TypeError
  end.

Fixpoint chars (s : string) : list json :=
  match s with
  | EmptyString => []
  | String c rest => JStr (String c EmptyString) :: chars rest
  end.

(** What [for x in v] ranges over. *)
Definition iter (v : json) : result (list json) :=
  match v with
  | JList items => Ok items
  | JObj fields => Ok (map (fun kv => JStr (fst kv)) fields)
  | JStr s => Ok (chars s)
  | _ => Raise TypeError
  end.

(** Truth value of an optional list argument: [None] and [[]] are false. *)
Definition truthy_list {A} (l : option (list A)) : bool :=
  match l with
  | Some (_ :: _) => true
  | _ => false
  end.

(** Truth value of an optional string: [None] and [""] are false. *)
Definition truthy_str (s : option string) : bool :=
  match s with
  | Some (String _ _) => true
  | _ => false
  end.

End Py.

(** ** Collaborators and the state they act on *)

(** The observable part of google.oauth2.credentials.Credentials. *)
Record Credentials : Type := {
  token : option string;
  expired : bool;
  refresh_token : option string
}.

(** The library's [valid] property: a token is held and it has not expired. *)
Definition valid (c : Credentials) : bool :=
  match token c with
  | Some _ => negb (expired c)
  | None => false
  end.

(** The handle [build(serviceName, version, credentials=creds)] constructs. *)
Record Service : Type := {
  serviceName : string;
  version : string;
  credentials : Credentials
}.

Definition build (name ver : string) (creds : Credentials) : Service :=
  {| serviceName := name; version := ver; credentials := creds |}.

(** Keyword arguments of [events().list(...)]. *)
Record list_params : Type := {
  calendarId : string;
  timeMin : option string;
  timeMax : option string;
  q : option string;
  maxResults : Z;
  singleEvents : bool;
  orderBy : string
}.

Inductive api_request : Type :=
| EventsList (params : list_params)
| EventsGet (calendar_id event_id : string)
| EventsInsert (calendar_id : string) (body : json)
| CalendarListList.

(** What a call has done to the outside world, most recent first. *)
Inductive effect : Type :=
| Refreshed                         (* creds.refresh(Request()) *)
| Granted                           (* flow.run_local_server(port=0) was called *)
| Persisted (content : string)      (* token.json was written *)
| Clobbered (remains : string)         (* token.json was opened for writing and the write
                                       raised, leaving [remains] in the file *)
| Requested (r : api_request).      (* .execute() was called *)

Record State : Type := {
  token_json : option string;       (* contents of token.json, if the file exists *)
  trace : list effect
}.

(** How [with open("token.json", "w") as token: token.write(...)] can end. *)
Inductive write_outcome : Type :=
| Written                                 (* opened, written and closed *)
| OpenFailed (e : exn)                    (* [open] raised: the file is as it was *)
| WriteFailed (e : exn) (remains : string).  (* opened, hence truncated, then the write or
                                             the close raised with [remains] in the file *)

(** Behaviour of everything the source imports.  Replies of the network and
    of the user may depend on all that happened before. *)
Record Env : Type := {
  from_authorized_user_file : string -> result Credentials;
  refresh : list effect -> Credentials -> result Credentials;
  from_client_secrets_file : list effect -> result unit;
  run_local_server : list effect -> result Credentials;
  token_write : list effect -> string -> write_outcome;
  to_json : Credentials -> string;
  execute : list effect -> Service -> api_request -> result json;
  utcnow : list effect -> string
}.

(** ** The monad of a tool call: state with exceptions *)

Definition M (A : Type) : Type := State -> result A * State.

Module Eff.

Definition ret {A} (a : A) : M A := fun st => (Ok a, st).

Definition bind {A B} (m : M A) (k : A -> M B) : M B :=
  fun st =>
    match m st with
    | (Ok a, st') => k a st'
    | (Raise e, st') => (Raise e, st')
    end.

Definition lift {A} (r : result A) : M A := fun st => (r, st).

Definition log (e : effect) (st : State) : State :=
  {| token_json := token_json st; trace := e :: trace st |}.

(** [try: body  except HttpError as error: handler(error)] *)
Definition try_except_HttpError {A} (body : M A) (handler : string -> M A) : M A :=
  fun st =>
    match body st with
    | (Raise (HttpError detail), st') => handler detail st'
    | other => other
    end.

End Eff.

Declare Scope eff_scope.
Delimit Scope eff_scope with eff.
Notation "x <- m ;; k" := (Eff.bind m (fun x => k))
  (at level 61, m at next level, right associativity) : eff_scope.
Notation "m ;;; k" := (Eff.bind m (fun _ => k))
  (at level 61, right associativity) : eff_scope.

(** ** Credential provider (lines 21-40) *)

Definition SCOPES : list string :=
  [ "https://www.googleapis.com/auth/calendar.readonly";
    "https://www.googleapis.com/auth/calendar" ].

(** [Credentials.from_authorized_user_file("token.json", SCOPES)] when the
    file exists, [None] otherwise. *)
Definition load_token (env : Env) : M (option Credentials) :=
  fun st =>
    match token_json st with
    | Some content =>
        match from_authorized_user_file env content with
        | Ok c => (Ok (Some c), st)
        | Raise e => (Raise e, st)
        end
    | None => (Ok None, st)
    end.

Definition do_refresh (env : Env) (c : Credentials) : M Credentials :=
  fun st => (refresh env (trace st) c, Eff.log Refreshed st).

(** [flow = InstalledAppFlow.from_client_secrets_file("credentials.json", SCOPES)]
    then [flow.run_local_server(port=0)]: when the flow cannot be built, no
    grant is run. *)
Definition do_grant (env : Env) : M Credentials :=
  fun st =>
    match from_client_secrets_file env (trace st) with
    | Raise e => (Raise e, st)
    | Ok _ => (run_local_server env (trace st), Eff.log Granted st)
    end.

(** [with open("token.json", "w") as token: token.write(creds.to_json())] *)
Definition write_token (env : Env) (c : Credentials) : M unit :=
  fun st =>
    match token_write env (trace st) (to_json env c) with
    | Written =>
        (Ok tt, {| token_json := Some (to_json env c);
                   trace := Persisted (to_json env c) :: trace st |})
    | OpenFailed e => (Raise e, st)
    | WriteFailed e remains =>
        (Raise e, {| token_json := Some remains; trace := Clobbered remains :: trace st |})
    end.

Definition get_calendar_service (env : Env) : M Service :=
  (creds <- load_token env ;;
   creds <-
     match creds with
     | Some c =>
         if negb (valid c) then
           c' <- (if expired c && Py.truthy_str (refresh_token c)
                  then do_refresh env c
                  else do_grant env) ;;
           write_token env c' ;;;
           Eff.ret c'
         else Eff.ret c
     | None =>
         c' <- do_grant env ;;
         write_token env c' ;;;
         Eff.ret c'
     end ;;
   Eff.ret (build "calendar" "v3" creds))%eff.

(** ** Normalisation of provider resources *)

(** [event[field].get("dateTime", event[field].get("date"))] *)
Definition timed_or_all_day (event : json) (field : string) : result json :=
  (part <- Py.getitem event field ;;
   fallback <- Py.get part "date" JNull ;;
   Py.get part "dateTime" fallback)%pure.

(** [[attendee.get("email") for attendee in event.get("attendees", [])]] *)
Definition attendee_emails (event : json) : result json :=
  (people <- Py.get event "attendees" (JList []) ;;
   people <- Py.iter people ;;
   emails <- Pure.for_each (fun attendee => Py.get attendee "email" JNull) people ;;
   Ok (JList emails))%pure.

(** Loop body of list_upcoming_events (lines 73-83) and, word for word, of
    get_events_in_date_range (lines 307-317). *)
Definition listed_event (event : json) : result json :=
  (start <- timed_or_all_day event "start" ;;
   id <- Py.get event "id" JNull ;;
   summary <- Py.get event "summary" (JStr "No title") ;;
   end_ <- timed_or_all_day event "end" ;;
   description <- Py.get event "description" (JStr "") ;;
   location <- Py.get event "location" (JStr "") ;;
   attendees <- attendee_emails event ;;
   html_link <- Py.get event "htmlLink" (JStr "") ;;
   Ok (JObj [ ("id", id); ("summary", summary); ("start", start); ("end", end_);
              ("description", description); ("location", location);
              ("attendees", attendees); ("html_link", html_link) ]))%pure.

(** Loop body of search_events (lines 222-231). *)
Definition searched_event (event : json) : result json :=
  (start <- timed_or_all_day event "start" ;;
   id <- Py.get event "id" JNull ;;
   summary <- Py.get event "summary" (JStr "No title") ;;
   end_ <- timed_or_all_day event "end" ;;
   description <- Py.get event "description" (JStr "") ;;
   location <- Py.get event "location" (JStr "") ;;
   html_link <- Py.get event "htmlLink" (JStr "") ;;
   Ok (JObj [ ("id", id); ("summary", summary); ("start", start); ("end", end_);
              ("description", description); ("location", location);
              ("html_link", html_link) ]))%pure.

(** One element of the attendee comprehension of get_event_details
    (lines 119-123). *)
Definition attendee_detail (attendee : json) : result json :=
  (email <- Py.get attendee "email" JNull ;;
   displayName <- Py.get attendee "displayName" (JStr "") ;;
   responseStatus <- Py.get attendee "responseStatus" (JStr "") ;;
   Ok (JObj [ ("email", email); ("displayName", displayName);
              ("responseStatus", responseStatus) ]))%pure.

(** [event.get(who, {}).get("email", "")] *)
Definition email_of (event : json) (who : string) : result json :=
  (person <- Py.get event who (JObj []) ;;
   Py.get person "email" (JStr ""))%pure.

(** The mapping get_event_details returns (lines 107-129). *)
Definition event_details (event : json) : result json :=
  (id <- Py.get event "id" JNull ;;
   summary <- Py.get event "summary" (JStr "No title") ;;
   description <- Py.get event "description" (JStr "") ;;
   location <- Py.get event "location" (JStr "") ;;
   start <- timed_or_all_day event "start" ;;
   end_ <- timed_or_all_day event "end" ;;
   created <- Py.get event "created" JNull ;;
   updated <- Py.get event "updated" JNull ;;
   creator <- email_of event "creator" ;;
   organizer <- email_of event "organizer" ;;
   people <- Py.get event "attendees" (JList []) ;;
   people <- Py.iter people ;;
   attendees <- Pure.for_each attendee_detail people ;;
   html_link <- Py.get event "htmlLink" (JStr "") ;;
   recurring_event_id <- Py.get event "recurringEventId" JNull ;;
   status <- Py.get event "status" (JStr "") ;;
   Ok (JObj [ ("id", id); ("summary", summary); ("description", description);
              ("location", location); ("start", start); ("end", end_);
              ("created", created); ("updated", updated); ("creator", creator);
              ("organizer", organizer); ("attendees", JList attendees);
              ("html_link", html_link); ("recurring_event_id", recurring_event_id);
              ("status", status) ]))%pure.

(** [event[field].get("dateTime")] *)
Definition timed_only (event : json) (field : string) : result json :=
  (part <- Py.getitem event field ;;
   Py.get part "dateTime" JNull)%pure.

(** The mapping create_event returns (lines 175-182). *)
Definition created_event (event : json) : result json :=
  (id <- Py.get event "id" JNull ;;
   summary <- Py.get event "summary" JNull ;;
   start <- timed_only event "start" ;;
   end_ <- timed_only event "end" ;;
   html_link <- Py.get event "htmlLink" JNull ;;
   Ok (JObj [ ("id", id); ("summary", summary); ("start", start); ("end", end_);
              ("html_link", html_link); ("status", JStr "created") ]))%pure.

(** Loop body of list_calendars (lines 254-262). *)
Definition calendar_record (calendar : json) : result json :=
  (id <- Py.get calendar "id" JNull ;;
   summary <- Py.get calendar "summary" (JStr "") ;;
   description <- Py.get calendar "description" (JStr "") ;;
   primary <- Py.get calendar "primary" (JBool false) ;;
   access_role <- Py.get calendar "accessRole" (JStr "") ;;
   background_color <- Py.get calendar "backgroundColor" (JStr "") ;;
   foreground_color <- Py.get calendar "foregroundColor" (JStr "") ;;
   Ok (JObj [ ("id", id); ("summary", summary); ("description", description);
              ("primary", primary); ("access_role", access_role);
              ("background_color", background_color);
              ("foreground_color", foreground_color) ]))%pure.

(** [items = reply.get("items", [])] followed by the formatting loop. *)
Definition format_items (body : json -> result json) (reply : json) : result json :=
  (items <- Py.get reply "items" (JList []) ;;
   items <- Py.iter items ;;
   formatted <- Pure.for_each body items ;;
   Ok (JList formatted))%pure.

(** [{"error": f"An error occurred: {error}"}] *)
Definition error_object (detail : string) : json :=
  JObj [ ("error", JStr ("An error occurred: " ++ detail)) ].

(** [event_body] of create_event (lines 162-171). *)
Definition event_body (summary start_datetime end_datetime description location : string)
    (attendees : option (list string)) : json :=
  let base :=
    [ ("summary", JStr summary);
      ("description", JStr description);
      ("location", JStr location);
      ("start", JObj [ ("dateTime", JStr start_datetime) ]);
      ("end", JObj [ ("dateTime", JStr end_datetime) ]) ] in
  if Py.truthy_list attendees then
    JObj (base ++
          [ ("attendees",
             JList (map (fun email => JObj [ ("email", JStr email) ])
                        (match attendees with Some l => l | None => [] end))) ])
  else JObj base.

(** ** The tools *)

(** [service.<resource>().<method>(...).execute()] *)
Definition run_request (env : Env) (service : Service) (r : api_request) : M json :=
  fun st => (execute env (trace st) service r, Eff.log (Requested r) st).

(** [datetime.datetime.now(tz=datetime.timezone.utc).isoformat()] *)
Definition now_isoformat (env : Env) : M string :=
  fun st => (Ok (utcnow env (trace st)), st).

Definition list_upcoming_events (env : Env) (max_results : Z) (calendar_id : string) : M json :=
  Eff.try_except_HttpError
    (service <- get_calendar_service env ;;
     now <- now_isoformat env ;;
     events_result <-
       run_request env service
         (EventsList {| calendarId := calendar_id; timeMin := Some now; timeMax := None;
                        q := None; maxResults := max_results; singleEvents := true;
                        orderBy := "startTime" |}) ;;
     Eff.lift (format_items listed_event events_result))%eff
    (fun error => Eff.ret (JList [ error_object error ])).

Definition get_event_details (env : Env) (event_id calendar_id : string) : M json :=
  Eff.try_except_HttpError
    (service <- get_calendar_service env ;;
     event <- run_request env service (EventsGet calendar_id event_id) ;;
     Eff.lift (event_details event))%eff
    (fun error => Eff.ret (error_object error)).

Definition create_event (env : Env)
    (summary start_datetime end_datetime description location : string)
    (attendees : option (list string)) (calendar_id : string) : M json :=
  Eff.try_except_HttpError
    (service <- get_calendar_service env ;;
     event <-
       run_request env service
         (EventsInsert calendar_id
            (event_body summary start_datetime end_datetime description location attendees)) ;;
     Eff.lift (created_event event))%eff
    (fun error => Eff.ret (error_object error)).

Definition search_events (env : Env) (query : string) (max_results : Z)
    (calendar_id : string) : M json :=
  Eff.try_except_HttpError
    (service <- get_calendar_service env ;;
     events_result <-
       run_request env service
         (EventsList {| calendarId := calendar_id; timeMin := None; timeMax := None;
                        q := Some query; maxResults := max_results; singleEvents := true;
                        orderBy := "startTime" |}) ;;
     Eff.lift (format_items searched_event events_result))%eff
    (fun error => Eff.ret (JList [ error_object error ])).

Definition list_calendars (env : Env) : M json :=
  Eff.try_except_HttpError
    (service <- get_calendar_service env ;;
     calendar_list <- run_request env service CalendarListList ;;
     Eff.lift (format_items calendar_record calendar_list))%eff
    (fun error => Eff.ret (JList [ error_object error ])).

Definition get_events_in_date_range (env : Env) (start_date end_date calendar_id : string)
    (max_results : Z) : M json :=
  Eff.try_except_HttpError
    (service <- get_calendar_service env ;;
     events_result <-
       run_request env service
         (EventsList {| calendarId := calendar_id; timeMin := Some start_date;
                        timeMax := Some end_date; q := None; maxResults := max_results;
                        singleEvents := true; orderBy := "startTime" |}) ;;
     Eff.lift (format_items listed_event events_result))%eff
    (fun error => Eff.ret (JList [ error_object error ])).

(** ** The tool surface the dispatcher sees *)

Inductive tool_call : Type :=
| ListUpcomingEvents (max_results : Z) (calendar_id : string)
| GetEventDetails (event_id calendar_id : string)
| CreateEvent (summary start_datetime end_datetime description location : string)
    (attendees : option (list string)) (calendar_id : string)
| SearchEvents (query : string) (max_results : Z) (calendar_id : string)
| ListCalendars
| GetEventsInDateRange (start_date end_date calendar_id : string) (max_results : Z).

Definition dispatch (env : Env) (c : tool_call) : M json :=
  match c with
  | ListUpcomingEvents max_results calendar_id =>
      list_upcoming_events env max_results calendar_id
  | GetEventDetails event_id calendar_id =>
      get_event_details env event_id calendar_id
  | CreateEvent summary start_datetime end_datetime description location attendees calendar_id =>
      create_event env summary start_datetime end_datetime description location attendees
        calendar_id
  | SearchEvents query max_results calendar_id =>
      search_events env query max_results calendar_id
  | ListCalendars => list_calendars env
  | GetEventsInDateRange start_date end_date calendar_id max_results =>
      get_events_in_date_range env start_date end_date calendar_id max_results
  end.

(** ** Vocabulary of the properties *)

(** The one request a tool issues; [now] is only read by list_upcoming_events. *)
Definition request_of (now : string) (c : tool_call) : api_request :=
  match c with
  | ListUpcomingEvents max_results calendar_id =>
      EventsList {| calendarId := calendar_id; timeMin := Some now; timeMax := None;
                    q := None; maxResults := max_results; singleEvents := true;
                    orderBy := "startTime" |}
  | GetEventDetails event_id calendar_id => EventsGet calendar_id event_id
  | CreateEvent summary start_datetime end_datetime description location attendees calendar_id =>
      EventsInsert calendar_id
        (event_body summary start_datetime end_datetime description location attendees)
  | SearchEvents query max_results calendar_id =>
      EventsList {| calendarId := calendar_id; timeMin := None; timeMax := None;
                    q := Some query; maxResults := max_results; singleEvents := true;
                    orderBy := "startTime" |}
  | ListCalendars => CalendarListList
  | GetEventsInDateRange start_date end_date calendar_id max_results =>
      EventsList {| calendarId := calendar_id; timeMin := Some start_date;
                    timeMax := Some end_date; q := None; maxResults := max_results;
                    singleEvents := true; orderBy := "startTime" |}
  end.

(** The remote call of a tool: the credential step, then the request. *)
Definition remote_reply (env : Env) (c : tool_call) : M json :=
  (service <- get_calendar_service env ;;
   now <- now_isoformat env ;;
   run_request env service (request_of now c))%eff.

(** What a tool makes of the provider's reply. *)
Definition normalize (c : tool_call) (reply : json) : result json :=
  match c with
  | ListUpcomingEvents _ _ => format_items listed_event reply
  | GetEventDetails _ _ => event_details reply
  | CreateEvent _ _ _ _ _ _ _ => created_event reply
  | SearchEvents _ _ _ => format_items searched_event reply
  | ListCalendars => format_items calendar_record reply
  | GetEventsInDateRange _ _ _ _ => format_items listed_event reply
  end.

Definition returns_list (c : tool_call) : bool :=
  match c with
  | GetEventDetails _ _ | CreateEvent _ _ _ _ _ _ _ => false
  | _ => true
  end.

(** The except branch of a tool. *)
Definition failure (c : tool_call) (detail : string) : json :=
  if returns_list c then JList [ error_object detail ] else error_object detail.

(** The provider resources a reply carries for a tool: the items of a listing,
    or the one event of a get or insert. *)
Definition resources (c : tool_call) (reply : json) : result (list json) :=
  if returns_list c then
    (items <- Py.get reply "items" (JList []) ;; Py.iter items)%pure
  else Ok [ reply ].

(** The mappings of a result: the elements of a sequence, or the one mapping. *)
Definition records (out : json) : list json :=
  match out with
  | JList items => items
  | other => [ other ]
  end.

Definition keys (record : json) : option (list string) :=
  match record with
  | JObj fields => Some (map fst fields)
  | _ => None
  end.

Definition field (k : string) (record : json) : option json :=
  match record with
  | JObj fields => Py.lookup k fields
  | _ => None
  end.

Definition has_key (k : string) (record : json) : bool :=
  match field k record with
  | Some _ => true
  | None => false
  end.

(** Key set of a success-path mapping, per tool. *)
Definition success_keys (c : tool_call) : list string :=
  match c with
  | ListUpcomingEvents _ _ | GetEventsInDateRange _ _ _ _ =>
      [ "id"; "summary"; "start"; "end"; "description"; "location"; "attendees"; "html_link" ]
  | SearchEvents _ _ _ =>
      [ "id"; "summary"; "start"; "end"; "description"; "location"; "html_link" ]
  | GetEventDetails _ _ =>
      [ "id"; "summary"; "description"; "location"; "start"; "end"; "created"; "updated";
        "creator"; "organizer"; "attendees"; "html_link"; "recurring_event_id"; "status" ]
  | CreateEvent _ _ _ _ _ _ _ =>
      [ "id"; "summary"; "start"; "end"; "html_link"; "status" ]
  | ListCalendars =>
      [ "id"; "summary"; "description"; "primary"; "access_role"; "background_color";
        "foreground_color" ]
  end.


(** A computation that does not raise HttpError. *)
Definition quiet {A} (r : result A) : Prop :=
  match r with
  | Raise (HttpError _) => False
  | _ => True
  end.

(** Tools whose result carries events (all but list_calendars). *)
Definition returns_events (c : tool_call) : bool :=
  match c with
  | ListCalendars => false
  | _ => true
  end.

(** Provider field, result key, and the value the tool's [.get] falls back to
    when the provider field is absent. *)
Definition defaults (c : tool_call) : list (string * string * json) :=
  match c with
  | ListUpcomingEvents _ _ | GetEventsInDateRange _ _ _ _ =>
      [ ("id", "id", JNull); ("summary", "summary", JStr "No title");
        ("description", "description", JStr ""); ("location", "location", JStr "");
        ("attendees", "attendees", JList []); ("htmlLink", "html_link", JStr "") ]
  | SearchEvents _ _ _ =>
      [ ("id", "id", JNull); ("summary", "summary", JStr "No title");
        ("description", "description", JStr ""); ("location", "location", JStr "");
        ("htmlLink", "html_link", JStr "") ]
  | GetEventDetails _ _ =>
      [ ("id", "id", JNull); ("summary", "summary", JStr "No title");
        ("description", "description", JStr ""); ("location", "location", JStr "");
        ("created", "created", JNull); ("updated", "updated", JNull);
        ("creator", "creator", JStr ""); ("organizer", "organizer", JStr "");
        ("attendees", "attendees", JList []); ("htmlLink", "html_link", JStr "");
        ("recurringEventId", "recurring_event_id", JNull); ("status", "status", JStr "") ]
  | CreateEvent _ _ _ _ _ _ _ =>
      [ ("id", "id", JNull); ("summary", "summary", JNull); ("htmlLink", "html_link", JNull) ]
  | ListCalendars =>
      [ ("id", "id", JNull); ("summary", "summary", JStr "");
        ("description", "description", JStr ""); ("primary", "primary", JBool false);
        ("accessRole", "access_role", JStr ""); ("backgroundColor", "background_color", JStr "");
        ("foregroundColor", "foreground_color", JStr "") ]
  end.

(** [record] has all the keys of the tool and holds the fallback value for
    every provider field that [resource] lacks. *)
Definition defaults_applied (c : tool_call) (resource record : json) : Prop :=
  exists fields,
    resource = JObj fields /\
    keys record = Some (success_keys c) /\
    forall src dst dflt,
      In (src, dst, dflt) (defaults c) ->
      Py.lookup src fields = None -> field dst record = Some dflt.

(** The value a tool surfaces for a start or end part of an event. *)
Definition time_value (c : tool_call) (part : list (string * json)) : json :=
  match Py.lookup "dateTime" part with
  | Some timed => timed
  | None =>
      match c with
      | CreateEvent _ _ _ _ _ _ _ => JNull
      | _ =>
          match Py.lookup "date" part with
          | Some all_day => all_day
          | None => JNull
          end
      end
  end.

Definition times_extracted (c : tool_call) (resource record : json) : Prop :=
  exists fields,
    resource = JObj fields /\
    forall f, In f [ "start"; "end" ] ->
      exists part,
        Py.lookup f fields = Some (JObj part) /\
        field f record = Some (time_value c part).

(** [start_date <= start < end_date] on RFC 3339 timestamps of one offset,
    which order as their text does. *)
Definition starts_within (start_date end_date : string) (record : json) : bool :=
  match field "start" record with
  | Some (JStr s) => String.leb start_date s && String.ltb s end_date
  | _ => false
  end.

(** [record]'s attendees are the email values of [resource]'s attendees, one
    per attendee and in order. *)
Definition attendees_flattened (resource record : json) : Prop :=
  exists people emails,
    (a <- Py.get resource "attendees" (JList []) ;; Py.iter a)%pure = Ok people /\
    field "attendees" record = Some (JList emails) /\
    Forall2 (fun person email => Py.get person "email" JNull = Ok email) people emails.

(** ** Sample collaborators *)

Definition live_credentials : Credentials :=
  {| token := Some "ya29.live"; expired := false; refresh_token := Some "1//refresh" |}.

Definition stale_credentials : Credentials :=
  {| token := Some "ya29.stale"; expired := true; refresh_token := Some "1//refresh" |}.

Definition render (c : Credentials) : string :=
  match token c with
  | Some t => "token=" ++ t
  | None => "token="
  end.

(** A provider that answers every request with [reply]; the stored token is
    [stored], refreshing yields [live_credentials], token.json can be written
    and nobody is there to complete a consent screen. *)
Definition sample_env (stored : Credentials) (reply : result json) : Env :=
  {| from_authorized_user_file := fun _ => Ok stored;
     refresh := fun _ _ => Ok live_credentials;
     from_client_secrets_file := fun _ => Ok tt;
     run_local_server := fun _ => Raise (ExternalError "AuthenticationFailure");
     token_write := fun _ _ => Written;
     to_json := render;
     execute := fun _ _ _ => reply;
     utcnow := fun _ => "2024-01-01T00:00:00+00:00" |}.

Definition logged_in : State :=
  {| token_json := Some "token=ya29"; trace := [] |}.

Definition timed (at_ : string) : json := JObj [ ("dateTime", JStr at_) ].

Definition standup : json :=
  JObj [ ("id", JStr "evt1"); ("summary", JStr "Standup");
         ("start", timed "2024-01-01T09:00:00Z"); ("end", timed "2024-01-01T09:15:00Z");
         ("attendees", JList [ JObj [ ("email", JStr "ann@example.com");
                                      ("displayName", JStr "Ann") ] ]) ].

(** An event resource without its [start] part. *)
Definition startless : json :=
  JObj [ ("id", JStr "evt2"); ("end", timed "2024-01-01T10:00:00Z") ].

(** An event resource without an [id]. *)
Definition nameless : json :=
  JObj [ ("start", timed "2024-01-01T09:00:00Z"); ("end", timed "2024-01-01T10:00:00Z") ].

(** An all-day event. *)
Definition holiday : json :=
  JObj [ ("id", JStr "evt3"); ("start", JObj [ ("date", JStr "2024-01-01") ]);
         ("end", JObj [ ("date", JStr "2024-01-02") ]) ].

(** An event that began before the queried day and ends within it. *)
Definition overnight : json :=
  JObj [ ("id", JStr "evt4"); ("summary", JStr "Night shift");
         ("start", timed "2023-12-31T22:00:00Z"); ("end", timed "2024-01-01T06:00:00Z");
         ("attendees", JList [ JObj [ ("email", JStr "bob@example.com");
                                      ("displayName", JStr "Bob") ] ]) ].

Definition listing (items : list json) : json := JObj [ ("items", JList items) ].

(** The mapping a tool builds from one provider resource. *)
Definition record_of (c : tool_call) (resource : json) : result json :=
  match c with
  | ListUpcomingEvents _ _ | GetEventsInDateRange _ _ _ _ => listed_event resource
  | GetEventDetails _ _ => event_details resource
  | CreateEvent _ _ _ _ _ _ _ => created_event resource
  | SearchEvents _ _ _ => searched_event resource
  | ListCalendars => calendar_record resource
  end.

(** An event resource whose start and end parts are empty. *)
Definition timeless : json :=
  JObj [ ("id", JStr "evt5"); ("start", JObj []); ("end", JObj []) ].

(** A calendar entry that carries nothing but its id, and its record. *)
Definition bare_calendar : json := JObj [ ("id", JStr "primary") ].

Definition bare_calendar_record : json :=
  JObj [ ("id", JStr "primary"); ("summary", JStr ""); ("description", JStr "");
         ("primary", JBool false); ("access_role", JStr "");
         ("background_color", JStr ""); ("foreground_color", JStr "") ].

(** ** Vocabulary of the further properties *)


(** The exceptions normalising a reply can raise: a missing start or end, a
    value of the wrong kind subscripted or iterated, [.get] on a value that is
    not a mapping. *)
Definition normalisation_error (e : exn) : bool :=
  match e with
  | KeyError k => String.eqb k "start" || String.eqb k "end"
  | TypeError | AttributeError => true
  | HttpError _ | ExternalError _ => false
  end.

Definition tame {A} (r : result A) : Prop :=
  match r with
  | Ok _ => True
  | Raise e => normalisation_error e = true
  end.




(** The disk fills up while token.json is being written. *)
Definition full_disk_env : Env :=
  {| from_authorized_user_file := fun _ => Ok stale_credentials;
     refresh := fun _ _ => Ok live_credentials;
     from_client_secrets_file := fun _ => Ok tt;
     run_local_server := fun _ => Ok live_credentials;
     token_write := fun _ _ => WriteFailed (ExternalError "OSError") "";
     to_json := render;
     execute := fun _ _ _ => Ok standup;
     utcnow := fun _ => "2024-01-01T00:00:00+00:00" |}.

(** No client secret file is installed. *)
Definition no_secrets_env : Env :=
  {| from_authorized_user_file := fun _ => Ok stale_credentials;
     refresh := fun _ _ => Ok live_credentials;
     from_client_secrets_file := fun _ => Raise (ExternalError "FileNotFoundError");
     run_local_server := fun _ => Ok live_credentials;
     token_write := fun _ _ => Written;
     to_json := render;
     execute := fun _ _ _ => Ok standup;
     utcnow := fun _ => "2024-01-01T00:00:00+00:00" |}.

(** A provider resource the tool [c] can turn into a record: a mapping; for
    the event tools its start and end parts are mappings; where the tool reads
    attendees, they are absent or range over mappings; where it reads creator
    and organizer, they are absent or mappings. *)
Definition is_mapping (v : json) : bool :=
  match v with
  | JObj _ => true
  | _ => false
  end.

Definition absent_or (ok : json -> bool) (v : option json) : bool :=
  match v with
  | Some present => ok present
  | None => true
  end.

Definition ranges_over_mappings (v : json) : bool :=
  match Py.iter v with
  | Ok people => forallb is_mapping people
  | Raise _ => false
  end.

Definition has_part (f : string) (fields : list (string * json)) : bool :=
  match Py.lookup f fields with
  | Some (JObj _) => true
  | _ => false
  end.

Definition well_formed (c : tool_call) (resource : json) : bool :=
  match resource with
  | JObj fields =>
      match c with
      | ListCalendars => true
      | SearchEvents _ _ _ | CreateEvent _ _ _ _ _ _ _ =>
          has_part "start" fields && has_part "end" fields
      | ListUpcomingEvents _ _ | GetEventsInDateRange _ _ _ _ =>
          has_part "start" fields && has_part "end" fields
          && absent_or ranges_over_mappings (Py.lookup "attendees" fields)
      | GetEventDetails _ _ =>
          has_part "start" fields && has_part "end" fields
          && absent_or is_mapping (Py.lookup "creator" fields)
          && absent_or is_mapping (Py.lookup "organizer" fields)
          && absent_or ranges_over_mappings (Py.lookup "attendees" fields)
      end
  | _ => false
  end.

(** A reply the tool [c] can normalise. *)
Definition accepts (c : tool_call) (reply : json) : bool :=
  match resources c reply with
  | Ok rs => forallb (well_formed c) rs
  | Raise _ => false
  end.

(** Provider field and result key of the fields a tool copies as they are. *)
Definition copied (c : tool_call) : list (string * string) :=
  match c with
  | ListUpcomingEvents _ _ | GetEventsInDateRange _ _ _ _ | SearchEvents _ _ _ =>
      [ ("id", "id"); ("summary", "summary"); ("description", "description");
        ("location", "location"); ("htmlLink", "html_link") ]
  | GetEventDetails _ _ =>
      [ ("id", "id"); ("summary", "summary"); ("description", "description");
        ("location", "location"); ("created", "created"); ("updated", "updated");
        ("htmlLink", "html_link"); ("recurringEventId", "recurring_event_id");
        ("status", "status") ]
  | CreateEvent _ _ _ _ _ _ _ =>
      [ ("id", "id"); ("summary", "summary"); ("htmlLink", "html_link") ]
  | ListCalendars =>
      [ ("id", "id"); ("summary", "summary"); ("description", "description");
        ("primary", "primary"); ("accessRole", "access_role");
        ("backgroundColor", "background_color"); ("foregroundColor", "foreground_color") ]
  end.

(** The email [event.get(who, {}).get("email", "")] yields on a mapping. *)
Definition email_or_empty (who : string) (fields : list (string * json)) : json :=
  match Py.lookup who fields with
  | Some (JObj person) =>
      match Py.lookup "email" person with
      | Some email => email
      | None => JStr ""
      end
  | _ => JStr ""
  end.

(** An event resource whose creator is null. *)
Definition orphan : json :=
  JObj [ ("id", JStr "evt6"); ("start", timed "2024-01-01T09:00:00Z");
         ("end", timed "2024-01-01T10:00:00Z"); ("creator", JNull) ].

(** Credential collaborators whose serialisation reads back. *)
Definition round_trip_env (reply : result json) : Env :=
  {| from_authorized_user_file :=
       fun content =>
         if String.eqb content "token=ya29.live" then Ok live_credentials
         else Ok stale_credentials;
     refresh := fun _ _ => Ok live_credentials;
     from_client_secrets_file := fun _ => Ok tt;
     run_local_server := fun _ => Ok live_credentials;
     token_write := fun _ _ => Written;
     to_json := render;
     execute := fun _ _ _ => reply;
     utcnow := fun _ => "2024-01-01T00:00:00+00:00" |}.

(** A provider in which refreshing fails. *)
Definition revoked_env : Env :=
  {| from_authorized_user_file := fun _ => Ok stale_credentials;
     refresh := fun _ _ => Raise (ExternalError "RefreshError");
     from_client_secrets_file := fun _ => Ok tt;
     run_local_server := fun _ => Ok live_credentials;
     token_write := fun _ _ => Written;
     to_json := render;
     execute := fun _ _ _ => Ok standup;
     utcnow := fun _ => "2024-01-01T00:00:00+00:00" |}.
(** ** Basic facts about the two monads *)

Lemma pure_bind_ok {A B} (m : result A) (k : A -> result B) (b : B) :
  Pure.bind m k = Ok b -> exists a, m = Ok a /\ k a = Ok b.
Proof.
  destruct m as [a | e]; simpl; intros H.
  - exists a. split; [reflexivity | exact H].
  - discriminate H.
Qed.

Lemma for_each_ok {A B} (body : A -> result B) (xs : list A) (ys : list B) :
  Pure.for_each body xs = Ok ys -> Forall2 (fun x y => body x = Ok y) xs ys.
Proof.
  revert ys. induction xs as [| x rest IH]; simpl; intros ys H.
  - injection H as <-. constructor.
  - destruct (body x) as [y | e] eqn:Hx; [| discriminate H].
    destruct (Pure.for_each body rest) as [ys' | e] eqn:Hrest; [| discriminate H].
    injection H as <-. constructor; [exact Hx | apply IH; reflexivity].
Qed.

Lemma quiet_bind {A B} (m : result A) (k : A -> result B) :
  quiet m -> (forall a, quiet (k a)) -> quiet (Pure.bind m k).
Proof.
  destruct m as [a | e]; simpl; intros Hm Hk; [apply Hk | exact Hm].
Qed.

Lemma quiet_for_each {A B} (body : A -> result B) (xs : list A) :
  (forall x, quiet (body x)) -> quiet (Pure.for_each body xs).
Proof.
  intros Hbody. induction xs as [| x rest IH]; simpl; [exact I |].
  specialize (Hbody x). destruct (body x) as [y | e]; [| exact Hbody].
  destruct (Pure.for_each body rest) as [ys | e]; [exact I | exact IH].
Qed.

Lemma quiet_get d k v : quiet (Py.get d k v).
Proof. destruct d; simpl; try exact I. destruct (Py.lookup k fields); exact I. Qed.

Lemma quiet_getitem d k : quiet (Py.getitem d k).
Proof. destruct d; simpl; try exact I. destruct (Py.lookup k fields); exact I. Qed.

Lemma quiet_iter v : quiet (Py.iter v).
Proof. destruct v; exact I. Qed.

Lemma quiet_ok {A} (a : A) : quiet (Ok a).
Proof. exact I. Qed.

Ltac quiet_tac :=
  repeat first
    [ apply quiet_ok | apply quiet_get | apply quiet_getitem | apply quiet_iter
    | apply quiet_for_each; intros ? | apply quiet_bind; [| intros ?] ].

Lemma quiet_normalize c reply : quiet (normalize c reply).
Proof.
  destruct c; simpl;
    unfold format_items, listed_event, searched_event, event_details, created_event,
      calendar_record, attendee_emails, attendee_detail, email_of, timed_or_all_day,
      timed_only;
    quiet_tac.
Qed.

Lemma dispatch_factor env c st :
  dispatch env c st =
  Eff.try_except_HttpError
    (reply <- remote_reply env c ;; Eff.lift (normalize c reply))%eff
    (fun detail => Eff.ret (failure c detail)) st.
Proof.
  destruct c; simpl;
    unfold list_upcoming_events, get_event_details, create_event, search_events,
      list_calendars, get_events_in_date_range, remote_reply, Eff.try_except_HttpError,
      Eff.bind, now_isoformat;
    destruct (get_calendar_service env st) as [[service | e] st1]; reflexivity.
Qed.

(** The three ways a call can go, read off the remote call. *)
Lemma dispatch_replied env c st reply st' :
  remote_reply env c st = (Ok reply, st') ->
  dispatch env c st = (normalize c reply, st').
Proof.
  intros H. rewrite dispatch_factor.
  unfold Eff.try_except_HttpError, Eff.bind, Eff.lift. rewrite H.
  pose proof (quiet_normalize c reply) as Hq.
  destruct (normalize c reply) as [v | [ ] ]; simpl in *; try reflexivity. contradiction.
Qed.

Lemma dispatch_http_error env c st detail st' :
  remote_reply env c st = (Raise (HttpError detail), st') ->
  dispatch env c st = (Ok (failure c detail), st').
Proof.
  intros H. rewrite dispatch_factor.
  unfold Eff.try_except_HttpError, Eff.bind. rewrite H. reflexivity.
Qed.

Lemma dispatch_other_error env c st e st' :
  remote_reply env c st = (Raise e, st') -> is_HttpError e = false ->
  dispatch env c st = (Raise e, st').
Proof.
  intros H He. rewrite dispatch_factor.
  unfold Eff.try_except_HttpError, Eff.bind. rewrite H.
  destruct e; simpl in He; try reflexivity. discriminate He.
Qed.

(** ** From a reply to its records *)

Ltac invert_binds H :=
  repeat (apply pure_bind_ok in H; let x := fresh "v" in let E := fresh "E" in
          destruct H as (x & E & H)).

Lemma record_of_mapping c resource record :
  record_of c resource = Ok record ->
  exists fields rfields, resource = JObj fields /\ record = JObj rfields.
Proof.
  intros H.
  destruct resource as [| b | n | s | items | fields];
    try (destruct c; discriminate H).
  exists fields.
  destruct c; simpl in H;
    unfold listed_event, event_details, created_event, searched_event, calendar_record in H;
    invert_binds H; injection H as <-; eexists; split; reflexivity.
Qed.

Lemma record_of_defaults c resource record :
  record_of c resource = Ok record -> defaults_applied c resource record.
Proof.
  intros H.
  destruct resource as [| b | n | s | items | fields];
    try (destruct c; discriminate H).
  exists fields. split; [reflexivity |].
  destruct c; simpl in H;
    unfold listed_event, event_details, created_event, searched_event, calendar_record in H;
    invert_binds H; injection H as <-; (split; [reflexivity |]).
  all: intros src dst dflt Hin Habsent; simpl in Hin.
  all: repeat (destruct Hin as [Hin | Hin]; [injection Hin as <- <- <- |]);
    try contradiction.
  all: unfold attendee_emails, email_of, Pure.bind in *; simpl in *;
    rewrite Habsent in *; simpl in *;
    repeat match goal with
           | H : Ok _ = Ok _ |- _ => injection H as H; subst; simpl in *
           end;
    reflexivity.
Qed.

Lemma timed_or_all_day_ok fields f v :
  timed_or_all_day (JObj fields) f = Ok v ->
  exists part,
    Py.lookup f fields = Some (JObj part) /\
    v = match Py.lookup "dateTime" part with
        | Some timed => timed
        | None =>
            match Py.lookup "date" part with
            | Some all_day => all_day
            | None => JNull
            end
        end.
Proof.
  unfold timed_or_all_day, Pure.bind, Py.getitem, Py.get. intros H.
  destruct (Py.lookup f fields) as [part |]; [| discriminate H].
  destruct part as [| b | n | s | items | part]; try discriminate H.
  exists part. split; [reflexivity |].
  destruct (Py.lookup "date" part) as [d |];
    destruct (Py.lookup "dateTime" part) as [t |]; injection H as <-; reflexivity.
Qed.

Lemma timed_only_ok fields f v :
  timed_only (JObj fields) f = Ok v ->
  exists part,
    Py.lookup f fields = Some (JObj part) /\
    v = match Py.lookup "dateTime" part with
        | Some timed => timed
        | None => JNull
        end.
Proof.
  unfold timed_only, Pure.bind, Py.getitem, Py.get. intros H.
  destruct (Py.lookup f fields) as [part |]; [| discriminate H].
  destruct part as [| b | n | s | items | part]; try discriminate H.
  exists part. split; [reflexivity |].
  destruct (Py.lookup "dateTime" part) as [t |]; injection H as <-; reflexivity.
Qed.

Lemma record_of_times c resource record :
  returns_events c = true ->
  record_of c resource = Ok record -> times_extracted c resource record.
Proof.
  intros Hev H.
  destruct resource as [| b | n | s | items | fields];
    try (destruct c; discriminate H).
  exists fields. split; [reflexivity |].
  destruct c; try discriminate Hev; simpl in H;
    unfold listed_event, event_details, created_event, searched_event in H;
    invert_binds H; injection H as <-.
  all: intros f [<- | [<- | [ ]]].
  all: repeat match goal with
         | E : timed_or_all_day _ _ = Ok _ |- _ =>
             apply timed_or_all_day_ok in E; destruct E as (? & ? & ->)
         | E : timed_only _ _ = Ok _ |- _ =>
             apply timed_only_ok in E; destruct E as (? & ? & ->)
         end.
  all: eexists; split; [eassumption | reflexivity].
Qed.

Lemma format_items_ok body reply out :
  format_items body reply = Ok out ->
  exists items outs,
    (i <- Py.get reply "items" (JList []) ;; Py.iter i)%pure = Ok items /\
    out = JList outs /\
    Forall2 (fun resource record => body resource = Ok record) items outs.
Proof.
  unfold format_items. intros H. invert_binds H. injection H as <-.
  exists v0, v1. split; [| split].
  - rewrite E. exact E0.
  - reflexivity.
  - apply for_each_ok. exact E1.
Qed.

Lemma normalize_pairs c reply out :
  normalize c reply = Ok out ->
  exists rs,
    resources c reply = Ok rs /\
    Forall2 (fun resource record => record_of c resource = Ok record) rs (records out).
Proof.
  intros H.
  destruct c; simpl in H;
    try (apply format_items_ok in H; destruct H as (items & outs & Hitems & -> & Hall);
         exists items; split; [exact Hitems | exact Hall]).
  - exists [ reply ]. split; [reflexivity |].
    destruct (record_of_mapping (GetEventDetails event_id calendar_id) reply out H)
      as (fields & rfields & _ & ->).
    constructor; [exact H | constructor].
  - exists [ reply ]. split; [reflexivity |].
    destruct (record_of_mapping
                (CreateEvent summary start_datetime end_datetime description location
                   attendees calendar_id) reply out H)
      as (fields & rfields & _ & ->).
    constructor; [exact H | constructor].
Qed.

Lemma Forall2_weaken {A B} (P Q : A -> B -> Prop) (xs : list A) (ys : list B) :
  (forall x y, P x y -> Q x y) -> Forall2 P xs ys -> Forall2 Q xs ys.
Proof.
  intros HPQ H. induction H; constructor; auto.
Qed.

(** A successful call either normalised a reply or absorbed an HttpError. *)
Lemma dispatch_ok env c st out :
  fst (dispatch env c st) = Ok out ->
  (exists reply st', remote_reply env c st = (Ok reply, st') /\ normalize c reply = Ok out)
  \/ (exists detail st',
        remote_reply env c st = (Raise (HttpError detail), st') /\ out = failure c detail).
Proof.
  intros H.
  destruct (remote_reply env c st) as [[reply | e] st'] eqn:Hr.
  - left. exists reply, st'. split; [reflexivity |].
    rewrite (dispatch_replied _ _ _ _ _ Hr) in H. exact H.
  - destruct e;
      try (rewrite (dispatch_other_error _ _ _ _ _ Hr eq_refl) in H; discriminate H).
    right. exists detail, st'. split; [reflexivity |].
    rewrite (dispatch_http_error _ _ _ _ _ Hr) in H. simpl in H.
    injection H as <-. reflexivity.
Qed.

(** ** Listings as maps over items *)

Lemma normalize_listing c reply :
  returns_list c = true ->
  normalize c reply
  = (items <- resources c reply ;;
     outs <- Pure.for_each (record_of c) items ;;
     Ok (JList outs))%pure.
Proof.
  intros Hl.
  destruct c; try discriminate Hl; simpl;
    unfold format_items, resources, Pure.bind; simpl;
    destruct (Py.get reply "items" (JList [])) as [items | e]; reflexivity.
Qed.

Lemma for_each_map {A B} (body : A -> result B) (xs : list A) (ys : list B) :
  Pure.for_each body xs = Ok ys <-> map body xs = map Ok ys.
Proof.
  revert ys. induction xs as [| x rest IH]; simpl; intros ys.
  - split; intros H.
    + injection H as <-. reflexivity.
    + destruct ys; [reflexivity | discriminate H].
  - destruct (body x) as [y | e] eqn:Hx.
    + destruct (Pure.for_each body rest) as [ys' | e] eqn:Hrest.
      * split; intros H.
        -- injection H as <-. simpl. f_equal. apply IH. reflexivity.
        -- destruct ys as [| y0 ys0]; [discriminate H |]. simpl in H.
           injection H as <- H. apply IH in H. injection H as <-. reflexivity.
      * split; intros H; [discriminate H |].
        destruct ys as [| y0 ys0]; [discriminate H |]. simpl in H.
        injection H as _ H. apply IH in H. discriminate H.
    + split; intros H; [discriminate H |].
      destruct ys as [| y0 ys0]; discriminate H.
Qed.

Lemma for_each_first_failure {A B} (body : A -> result B) (good : list A) (bad : A)
    (rest : list A) (e : exn) :
  Forall (fun x => exists y, body x = Ok y) good ->
  body bad = Raise e ->
  Pure.for_each body (good ++ bad :: rest) = Raise e.
Proof.
  intros Hgood Hbad. induction Hgood as [| x good' [y Hy] _ IH]; simpl.
  - rewrite Hbad. reflexivity.
  - rewrite Hy, IH. reflexivity.
Qed.

(** ** Which resources a tool can normalise *)

Lemma get_mapping fields k d :
  Py.get (JObj fields) k d
  = Ok (match Py.lookup k fields with Some v => v | None => d end).
Proof. unfold Py.get. destruct (Py.lookup k fields); reflexivity. Qed.

Lemma has_part_lookup f fields :
  has_part f fields = true -> exists part, Py.lookup f fields = Some (JObj part).
Proof.
  unfold has_part. destruct (Py.lookup f fields) as [[| b | n | s | items | part] |];
    try discriminate. intros _. exists part. reflexivity.
Qed.

Lemma timed_or_all_day_part fields f part :
  Py.lookup f fields = Some (JObj part) ->
  timed_or_all_day (JObj fields) f
  = Ok (match Py.lookup "dateTime" part with
        | Some timed => timed
        | None => match Py.lookup "date" part with
                  | Some all_day => all_day
                  | None => JNull
                  end
        end).
Proof.
  intros H. unfold timed_or_all_day, Pure.bind, Py.getitem. rewrite H.
  rewrite !get_mapping. reflexivity.
Qed.

Lemma timed_only_part fields f part :
  Py.lookup f fields = Some (JObj part) ->
  timed_only (JObj fields) f
  = Ok (match Py.lookup "dateTime" part with
        | Some timed => timed
        | None => JNull
        end).
Proof.
  intros H. unfold timed_only, Pure.bind, Py.getitem. rewrite H.
  rewrite !get_mapping. reflexivity.
Qed.

Lemma for_each_total {A B} (body : A -> result B) (ok : A -> bool) (xs : list A) :
  (forall x, ok x = true -> exists y, body x = Ok y) ->
  forallb ok xs = true -> exists ys, Pure.for_each body xs = Ok ys.
Proof.
  intros Hbody. induction xs as [| x rest IH]; simpl; intros H.
  - exists []. reflexivity.
  - apply andb_prop in H. destruct H as [Hx Hrest].
    destruct (Hbody x Hx) as [y Hy]. destruct (IH Hrest) as [ys Hys].
    exists (y :: ys). rewrite Hy, Hys. reflexivity.
Qed.

Lemma for_each_needs {A B} (body : A -> result B) (ok : A -> bool) (xs : list A)
    (ys : list B) :
  (forall x y, body x = Ok y -> ok x = true) ->
  Pure.for_each body xs = Ok ys -> forallb ok xs = true.
Proof.
  intros Hbody H. apply for_each_ok in H.
  induction H as [| x y xs' ys' Hxy _ IH]; simpl; [reflexivity |].
  rewrite (Hbody x y Hxy). exact IH.
Qed.

Lemma get_needs_mapping d k dflt v : Py.get d k dflt = Ok v -> is_mapping d = true.
Proof. destruct d; simpl; try discriminate. reflexivity. Qed.

Lemma attendee_detail_needs_mapping a v : attendee_detail a = Ok v -> is_mapping a = true.
Proof.
  unfold attendee_detail. intros H. apply pure_bind_ok in H. destruct H as (x & E & _).
  apply (get_needs_mapping _ _ _ _ E).
Qed.

Lemma attendee_detail_mapping fields :
  attendee_detail (JObj fields)
  = Ok (JObj [ ("email", match Py.lookup "email" fields with
                         | Some v => v | None => JNull end);
               ("displayName", match Py.lookup "displayName" fields with
                               | Some v => v | None => JStr "" end);
               ("responseStatus", match Py.lookup "responseStatus" fields with
                                  | Some v => v | None => JStr "" end) ]).
Proof. unfold attendee_detail. rewrite !get_mapping. reflexivity. Qed.

(** The attendee loop of a tool succeeds exactly on an attendee field that is
    absent or ranges over mappings. *)
Lemma attendee_loop_iff {B} (body : json -> result B) fields :
  (forall a, is_mapping a = true -> exists y, body a = Ok y) ->
  (forall a y, body a = Ok y -> is_mapping a = true) ->
  (exists ys,
     (people <- Py.get (JObj fields) "attendees" (JList []) ;;
      people <- Py.iter people ;;
      Pure.for_each body people)%pure = Ok ys)
  <-> absent_or ranges_over_mappings (Py.lookup "attendees" fields) = true.
Proof.
  intros Htotal Hneeds. rewrite get_mapping. unfold Pure.bind at 1.
  unfold absent_or, ranges_over_mappings.
  destruct (Py.lookup "attendees" fields) as [v |].
  - unfold Pure.bind. destruct (Py.iter v) as [people | e].
    + split.
      * intros [ys H]. apply (for_each_needs body is_mapping people ys Hneeds H).
      * apply for_each_total. exact Htotal.
    + split; [intros [ys H]; discriminate H | discriminate].
  - simpl. split; [reflexivity |]. intros _. exists []. reflexivity.
Qed.

Lemma email_get_total a : is_mapping a = true -> exists y, Py.get a "email" JNull = Ok y.
Proof.
  destruct a; try discriminate. intros _. rewrite get_mapping. eexists. reflexivity.
Qed.

Lemma attendee_detail_total a : is_mapping a = true -> exists y, attendee_detail a = Ok y.
Proof.
  destruct a; try discriminate. intros _. rewrite attendee_detail_mapping.
  eexists. reflexivity.
Qed.

Lemma attendee_emails_iff fields :
  (exists v, attendee_emails (JObj fields) = Ok v)
  <-> absent_or ranges_over_mappings (Py.lookup "attendees" fields) = true.
Proof.
  rewrite <- (attendee_loop_iff (fun a => Py.get a "email" JNull) fields
                email_get_total (fun a y => get_needs_mapping a "email" JNull y)).
  unfold attendee_emails. split.
  - intros [v H]. invert_binds H. exists v2. rewrite E. simpl. rewrite E0. simpl. exact E1.
  - intros [ys H]. invert_binds H. rewrite E. simpl. rewrite E0. simpl. rewrite H. simpl.
    eexists. reflexivity.
Qed.

Lemma email_of_iff fields who :
  (exists v, email_of (JObj fields) who = Ok v)
  <-> absent_or is_mapping (Py.lookup who fields) = true.
Proof.
  unfold email_of. rewrite get_mapping. unfold Pure.bind, absent_or.
  destruct (Py.lookup who fields) as [[| b | n | s | items | person] |]; simpl;
    try (split; [intros [v H]; discriminate H | discriminate]).
  - split; [reflexivity |]. intros _.
    destruct (Py.lookup "email" person); eexists; reflexivity.
  - split; [reflexivity | intros _; eexists; reflexivity].
Qed.

Lemma email_of_value fields who v :
  email_of (JObj fields) who = Ok v -> v = email_or_empty who fields.
Proof.
  unfold email_of, email_or_empty. rewrite get_mapping. unfold Pure.bind.
  destruct (Py.lookup who fields) as [[| b | n | s | items | person] |]; simpl;
    try discriminate.
  - destruct (Py.lookup "email" person); intros H; injection H as <-; reflexivity.
  - intros H. injection H as <-. reflexivity.
Qed.

Lemma timed_or_all_day_needs fields f v :
  timed_or_all_day (JObj fields) f = Ok v -> has_part f fields = true.
Proof.
  intros H. apply timed_or_all_day_ok in H. destruct H as (part & Hp & _).
  unfold has_part. rewrite Hp. reflexivity.
Qed.

Lemma timed_only_needs fields f v :
  timed_only (JObj fields) f = Ok v -> has_part f fields = true.
Proof.
  intros H. apply timed_only_ok in H. destruct H as (part & Hp & _).
  unfold has_part. rewrite Hp. reflexivity.
Qed.
Lemma record_of_iff c resource :
  (exists record, record_of c resource = Ok record) <-> well_formed c resource = true.
Proof.
  destruct resource as [| b | n | s | items | fields];
    try (split; [intros [r H]; destruct c; discriminate H | discriminate]).
  split.
  - intros [r H].
    destruct c; simpl in H |- *;
      unfold listed_event, event_details, created_event, searched_event, calendar_record in H;
      invert_binds H;
      repeat match goal with
             | E : timed_or_all_day _ _ = Ok _ |- _ => apply timed_or_all_day_needs in E
             | E : timed_only _ _ = Ok _ |- _ => apply timed_only_needs in E
             | E : attendee_emails _ = Ok _ |- _ =>
                 apply (fun e => proj1 (attendee_emails_iff fields) (ex_intro _ _ e)) in E
             | E : email_of _ _ = Ok _ |- _ =>
                 apply (fun e => proj1 (email_of_iff fields _) (ex_intro _ _ e)) in E
             end;
      repeat match goal with
             | E : _ = true |- _ => rewrite E; clear E
             end; try reflexivity.
    simpl.
    apply (proj1 (attendee_loop_iff attendee_detail fields attendee_detail_total
                    attendee_detail_needs_mapping)).
    exists v11. rewrite E9. simpl. rewrite E10. simpl. exact E11.
  - intros H.
    destruct c; simpl in H |- *;
      unfold listed_event, event_details, created_event, searched_event, calendar_record;
      repeat match goal with
             | H : _ && _ = true |- _ => apply andb_prop in H; destruct H
             end;
      repeat match goal with
             | H : has_part _ _ = true |- _ =>
                 apply has_part_lookup in H; destruct H as (? & H);
                 pose proof (timed_or_all_day_part _ _ _ H);
                 apply timed_only_part in H
             | H : absent_or is_mapping _ = true |- _ =>
                 apply (proj2 (email_of_iff _ _)) in H; destruct H as (? & H)
             end.
    all: try match goal with
             | H : absent_or ranges_over_mappings _ = true |- context [attendee_emails] =>
                 apply (proj2 (attendee_emails_iff _)) in H; destruct H as (? & H)
             | H : absent_or ranges_over_mappings _ = true |- context [attendee_detail] =>
                 apply (proj2 (attendee_loop_iff attendee_detail _ attendee_detail_total
                                 attendee_detail_needs_mapping)) in H;
                 destruct H as (? & H); invert_binds H
             end.
    all: repeat (cbn [Pure.bind];
                 first [ match goal with
                         | H : ?m = Ok _ |- context [?m] => rewrite H
                         end
                       | rewrite get_mapping ]).
    all: cbn [Pure.bind]; eexists; reflexivity.
Qed.

Lemma normalize_iff c reply :
  (exists out, normalize c reply = Ok out) <-> accepts c reply = true.
Proof.
  unfold accepts. destruct (returns_list c) eqn:Hl.
  - rewrite (normalize_listing c reply Hl).
    destruct (resources c reply) as [items | e]; simpl.
    + split.
      * intros [out H]. apply pure_bind_ok in H. destruct H as (outs & Houts & _).
        apply (for_each_needs (record_of c) (well_formed c) items outs); [| exact Houts].
        intros x y Hxy. apply record_of_iff. exists y. exact Hxy.
      * intros H.
        destruct (for_each_total (record_of c) (well_formed c) items
                    (fun x Hx => proj2 (record_of_iff c x) Hx) H) as [outs Houts].
        exists (JList outs). rewrite Houts. reflexivity.
    + split; [intros [out H]; discriminate H | discriminate].
  - assert (Hn : normalize c reply = record_of c reply)
      by (destruct c; try discriminate Hl; reflexivity).
    rewrite Hn. unfold resources. rewrite Hl. simpl. rewrite andb_true_r.
    apply record_of_iff.
Qed.

(** ** The exceptions normalisation can raise *)

Lemma tame_bind {A B} (m : result A) (k : A -> result B) :
  tame m -> (forall a, tame (k a)) -> tame (Pure.bind m k).
Proof.
  destruct m as [a | e]; simpl; intros Hm Hk; [apply Hk | exact Hm].
Qed.

Lemma tame_for_each {A B} (body : A -> result B) (xs : list A) :
  (forall x, tame (body x)) -> tame (Pure.for_each body xs).
Proof.
  intros Hbody. induction xs as [| x rest IH]; simpl; [exact I |].
  specialize (Hbody x). destruct (body x) as [y | e]; [| exact Hbody].
  destruct (Pure.for_each body rest) as [ys | e]; [exact I | exact IH].
Qed.

Lemma tame_get d k v : tame (Py.get d k v).
Proof.
  destruct d; simpl; try reflexivity. destruct (Py.lookup k fields); exact I.
Qed.

Lemma tame_getitem_start d : tame (Py.getitem d "start").
Proof.
  destruct d; simpl; try reflexivity. destruct (Py.lookup "start" fields); [exact I | reflexivity].
Qed.

Lemma tame_getitem_end d : tame (Py.getitem d "end").
Proof.
  destruct d; simpl; try reflexivity. destruct (Py.lookup "end" fields); [exact I | reflexivity].
Qed.

Lemma tame_iter v : tame (Py.iter v).
Proof. destruct v; simpl; first [exact I | reflexivity]. Qed.

Lemma tame_ok {A} (a : A) : tame (Ok a).
Proof. exact I. Qed.

Ltac tame_tac :=
  repeat first
    [ apply tame_ok | apply tame_get | apply tame_getitem_start | apply tame_getitem_end
    | apply tame_iter | apply tame_for_each; intros ? | apply tame_bind; [| intros ?] ].

Lemma tame_normalize c reply : tame (normalize c reply).
Proof.
  destruct c; simpl;
    unfold format_items, listed_event, searched_event, event_details, created_event,
      calendar_record, attendee_emails, attendee_detail, email_of, timed_or_all_day,
      timed_only;
    tame_tac.
Qed.

(** Normalising a reply gives a value exactly on the replies the tool accepts
    and raises one of the normalisation errors on all others. *)
Lemma normalize_outcome c reply :
  match normalize c reply with
  | Ok _ => accepts c reply = true
  | Raise e => accepts c reply = false /\ normalisation_error e = true
  end.
Proof.
  pose proof (tame_normalize c reply) as Ht.
  pose proof (normalize_iff c reply) as Hiff.
  destruct (normalize c reply) as [out | e].
  - apply Hiff. exists out. reflexivity.
  - split; [| exact Ht].
    destruct (accepts c reply); [| reflexivity].
    destruct (proj2 Hiff eq_refl) as [out Hout]. discriminate Hout.
Qed.

(** ** The tools on sample replies *)

Example get_event_details_standup :
  fst (get_event_details (sample_env live_credentials (Ok standup)) "evt1" "primary" logged_in)
  = Ok (JObj [ ("id", JStr "evt1"); ("summary", JStr "Standup"); ("description", JStr "");
               ("location", JStr ""); ("start", JStr "2024-01-01T09:00:00Z");
               ("end", JStr "2024-01-01T09:15:00Z"); ("created", JNull); ("updated", JNull);
               ("creator", JStr ""); ("organizer", JStr "");
               ("attendees", JList [ JObj [ ("email", JStr "ann@example.com");
                                            ("displayName", JStr "Ann");
                                            ("responseStatus", JStr "") ] ]);
               ("html_link", JStr ""); ("recurring_event_id", JNull);
               ("status", JStr "") ]).
Proof. reflexivity. Qed.

Example list_upcoming_events_all_day :
  fst (list_upcoming_events (sample_env live_credentials (Ok (listing [ holiday ])))
         10 "primary" logged_in)
  = Ok (JList [ JObj [ ("id", JStr "evt3"); ("summary", JStr "No title");
                       ("start", JStr "2024-01-01"); ("end", JStr "2024-01-02");
                       ("description", JStr ""); ("location", JStr "");
                       ("attendees", JList []); ("html_link", JStr "") ] ]).
Proof. reflexivity. Qed.

Example list_calendars_without_items :
  fst (list_calendars (sample_env live_credentials (Ok (JObj []))) logged_in) = Ok (JList []).
Proof. reflexivity. Qed.

Example search_events_items_null :
  fst (search_events (sample_env live_credentials (Ok (JObj [ ("items", JNull) ])))
         "standup" 10 "primary" logged_in)
  = Raise TypeError.
Proof. reflexivity. Qed.

Example first_use_runs_the_grant :
  get_calendar_service (sample_env live_credentials (Ok standup))
    {| token_json := None; trace := [] |}
  = (Raise (ExternalError "AuthenticationFailure"), {| token_json := None; trace := [ Granted ] |}).
Proof. reflexivity. Qed.

Example grant_without_client_secrets :
  get_calendar_service no_secrets_env {| token_json := None; trace := [] |}
  = (Raise (ExternalError "FileNotFoundError"), {| token_json := None; trace := [] |}).
Proof. reflexivity. Qed.

Example refresh_then_failed_write :
  get_calendar_service full_disk_env logged_in
  = (Raise (ExternalError "OSError"),
     {| token_json := Some ""; trace := [ Clobbered ""; Refreshed ] |}).
Proof. reflexivity. Qed.

Example create_event_body_with_attendees :
  event_body "Standup" "2024-01-01T09:00:00Z" "2024-01-01T09:15:00Z" "" "" (Some [ "ann@example.com" ])
  = JObj [ ("summary", JStr "Standup"); ("description", JStr ""); ("location", JStr "");
           ("start", JObj [ ("dateTime", JStr "2024-01-01T09:00:00Z") ]);
           ("end", JObj [ ("dateTime", JStr "2024-01-01T09:15:00Z") ]);
           ("attendees", JList [ JObj [ ("email", JStr "ann@example.com") ] ]) ].
Proof. reflexivity. Qed.

(** ** Failure boundary *)

(** C1 (as stated, refuted): list_upcoming_events lets a KeyError cross the
    boundary when an item of the provider's reply has no [start] part, although
    the credential step succeeded. *)
Lemma key_error_crosses_boundary :
  fst (dispatch (sample_env live_credentials (Ok (listing [ startless ])))
         (ListUpcomingEvents 10 "primary") logged_in)
    = Raise (KeyError "start")
  /\ fst (get_calendar_service (sample_env live_credentials (Ok (listing [ startless ])))
            logged_in)
     = Ok (build "calendar" "v3" live_credentials).
Proof. split; reflexivity. Qed.

(** C1 (amended): for every tool, environment and state, no HttpError crosses
    the boundary. An HttpError raised by the credential step or the remote
    call becomes the tool's error result, and any other exception raised
    there aborts the call unchanged. Once the provider has replied, the call
    returns a value exactly when the tool accepts the reply (every resource a
    mapping, start and end parts mappings, attendees, creator and organizer
    absent or of the right kind); on every other reply it aborts with
    KeyError("start"), KeyError("end"), TypeError or AttributeError, and with
    nothing else. *)
Theorem only_http_errors_are_absorbed (env : Env) (c : tool_call) (st : State) :
  (forall detail, fst (dispatch env c st) <> Raise (HttpError detail)) /\
  match remote_reply env c st with
  | (Ok reply, st') =>
      dispatch env c st = (normalize c reply, st') /\
      match normalize c reply with
      | Ok _ => accepts c reply = true
      | Raise e =>
          accepts c reply = false /\
          (e = KeyError "start" \/ e = KeyError "end" \/ e = TypeError \/ e = AttributeError)
      end
  | (Raise (HttpError detail), st') => dispatch env c st = (Ok (failure c detail), st')
  | (Raise e, st') => dispatch env c st = (Raise e, st')
  end.
Proof.
  assert (Hclasses : forall e, normalisation_error e = true ->
            e = KeyError "start" \/ e = KeyError "end" \/ e = TypeError \/ e = AttributeError).
  { intros e He. destruct e; simpl in He; try discriminate He; auto.
    apply orb_prop in He. destruct He as [He | He]; apply String.eqb_eq in He; subst; auto. }
  assert (Hreplied : forall reply,
            match normalize c reply with
            | Ok _ => accepts c reply = true
            | Raise e =>
                accepts c reply = false /\
                (e = KeyError "start" \/ e = KeyError "end" \/ e = TypeError
                 \/ e = AttributeError)
            end).
  { intros reply. pose proof (normalize_outcome c reply) as Ho.
    destruct (normalize c reply) as [out | e]; [exact Ho |].
    destruct Ho as [Ha He]. split; [exact Ha | apply Hclasses; exact He]. }
  destruct (remote_reply env c st) as [[reply | e] st'] eqn:Hr.
  - rewrite (dispatch_replied _ _ _ _ _ Hr). simpl.
    split; [| split; [reflexivity | apply Hreplied]].
    intros detail Hd. specialize (Hreplied reply). rewrite Hd in Hreplied.
    destruct Hreplied as [_ [H | [H | [H | H]]]]; discriminate H.
  - destruct e;
      first [ rewrite (dispatch_http_error _ _ _ _ _ Hr)
            | rewrite (dispatch_other_error _ _ _ _ _ Hr eq_refl) ];
      (split; [intros d Hd; discriminate Hd | reflexivity]).
Qed.

(** C4 (as stated, refuted): when the remote call fails with a transport error,
    which [execute()] raises as a class other than HttpError, get_event_details
    returns no value at all: the exception leaves the tool. *)
Lemma transport_error_not_normalized :
  fst (remote_reply
         (sample_env live_credentials (Raise (ExternalError "ServerNotFoundError")))
         (GetEventDetails "evt1" "primary") logged_in)
    = Raise (ExternalError "ServerNotFoundError")
  /\ fst (dispatch
            (sample_env live_credentials (Raise (ExternalError "ServerNotFoundError")))
            (GetEventDetails "evt1" "primary") logged_in)
     = Raise (ExternalError "ServerNotFoundError").
Proof. split; reflexivity. Qed.

(** C4 (amended): whenever the remote call of a tool fails with an HttpError,
    the tool returns exactly the single-key mapping [{"error": m}] with [m] the
    non-empty string "An error occurred: " followed by the error's text; the
    four list-returning tools return the one-element sequence holding it. *)
Theorem http_error_shape (env : Env) (c : tool_call) (st st' : State) (detail : string) :
  remote_reply env c st = (Raise (HttpError detail), st') ->
  exists m,
    m = ("An error occurred: " ++ detail)%string /\ m <> "" /\
    fst (dispatch env c st) =
      Ok (match c with
          | GetEventDetails _ _ | CreateEvent _ _ _ _ _ _ _ => JObj [ ("error", JStr m) ]
          | _ => JList [ JObj [ ("error", JStr m) ] ]
          end).
Proof.
  intros H. exists ("An error occurred: " ++ detail)%string.
  split; [reflexivity |]. split; [discriminate |].
  rewrite (dispatch_http_error _ _ _ _ _ H). destruct c; reflexivity.
Qed.

Lemma http_error_shape_witness :
  exists m,
    m = "An error occurred: 404 Not Found" /\ m <> "" /\
    fst (dispatch (sample_env live_credentials (Raise (HttpError "404 Not Found")))
           (SearchEvents "standup" 10 "primary") logged_in)
      = Ok (JList [ JObj [ ("error", JStr m) ] ]).
Proof.
  apply (http_error_shape
           (sample_env live_credentials (Raise (HttpError "404 Not Found")))
           (SearchEvents "standup" 10 "primary") logged_in
           (Eff.log (Requested (request_of "2024-01-01T00:00:00+00:00"
                                  (SearchEvents "standup" 10 "primary"))) logged_in)
           "404 Not Found").
  reflexivity.
Defined.

(** ** create_event's request body *)

(** C10: create_event with an empty attendee list builds the same request body
    as create_event without an attendee list, a body with no [attendees] field,
    and so behaves the same in every environment and state. *)
Theorem empty_attendees_same_as_absent
    (summary start_datetime end_datetime description location calendar_id : string) :
  event_body summary start_datetime end_datetime description location (Some [])
    = event_body summary start_datetime end_datetime description location None
  /\ field "attendees"
       (event_body summary start_datetime end_datetime description location (Some []))
     = None
  /\ forall env st,
       create_event env summary start_datetime end_datetime description location (Some [])
         calendar_id st
       = create_event env summary start_datetime end_datetime description location None
           calendar_id st.
Proof.
  split; [reflexivity |]. split; [reflexivity |]. intros env st. reflexivity.
Qed.

(** ** Credential provider *)




(** ** Determinism of normalisation *)

Lemma same_reply_same_result env c st1 st2 :
  fst (remote_reply env c st1) = fst (remote_reply env c st2) ->
  fst (dispatch env c st1) = fst (dispatch env c st2).
Proof.
  intros H. rewrite !dispatch_factor.
  unfold Eff.try_except_HttpError, Eff.bind, Eff.lift.
  destruct (remote_reply env c st1) as [[r1 | e1] s1];
    destruct (remote_reply env c st2) as [[r2 | e2] s2];
    simpl in H; try discriminate H.
  - injection H as <-. destruct (normalize c r1) as [v | [ ] ]; reflexivity.
  - injection H as <-. destruct e1; reflexivity.
Qed.

(** C7: when get_event_details is called a second time with the same event_id
    and calendar_id, in the state the first call left, and the provider
    answers the second request as it answered the first (nothing changed the
    event in between), the second call returns what the first returned. *)
Theorem get_event_details_repeatable
    (env : Env) (event_id calendar_id : string) (st : State) :
  fst (remote_reply env (GetEventDetails event_id calendar_id)
         (snd (get_event_details env event_id calendar_id st)))
    = fst (remote_reply env (GetEventDetails event_id calendar_id) st) ->
  fst (get_event_details env event_id calendar_id
         (snd (get_event_details env event_id calendar_id st)))
    = fst (get_event_details env event_id calendar_id st).
Proof.
  intros H.
  apply (same_reply_same_result env (GetEventDetails event_id calendar_id)). exact H.
Qed.

Lemma get_event_details_repeatable_witness :
  fst (get_event_details (sample_env stale_credentials (Ok standup)) "evt1" "primary"
         (snd (get_event_details (sample_env stale_credentials (Ok standup)) "evt1" "primary"
                 logged_in)))
    = fst (get_event_details (sample_env stale_credentials (Ok standup)) "evt1" "primary"
             logged_in).
Proof.
  apply (get_event_details_repeatable (sample_env stale_credentials (Ok standup))
           "evt1" "primary" logged_in).
  reflexivity.
Defined.

(** ** Shape of results *)

Lemma lookup_absent k (fields : list (string * json)) :
  ~ In k (map fst fields) -> Py.lookup k fields = None.
Proof.
  induction fields as [| [k' v] rest IH]; simpl; intros Hnot; [reflexivity |].
  destruct (String.eqb k k') eqn:Hk.
  - apply String.eqb_eq in Hk. subst k'. exfalso. apply Hnot. left. reflexivity.
  - apply IH. intros Hin. apply Hnot. right. exact Hin.
Qed.

Lemma error_not_a_success_key c : ~ In "error" (success_keys c).
Proof.
  destruct c; simpl; intros H;
    repeat (destruct H as [H | H]; [discriminate H |]); exact H.
Qed.

Lemma success_record_has_no_error c record :
  keys record = Some (success_keys c) -> has_key "error" record = false.
Proof.
  destruct record as [| b | n | s | items | fields]; try discriminate.
  simpl. intros H. injection H as H.
  unfold has_key, field. rewrite lookup_absent; [reflexivity |].
  rewrite H. apply error_not_a_success_key.
Qed.

Lemma existsb_never {A} (f : A -> bool) (xs : list A) :
  (forall x, In x xs -> f x = false) -> existsb f xs = false.
Proof.
  induction xs as [| x rest IH]; simpl; intros H; [reflexivity |].
  rewrite (H x (or_introl eq_refl)). apply IH. intros y Hy. apply H. right. exact Hy.
Qed.

(** C9: whenever a tool returns a value, either the provider replied and every
    mapping of the result has exactly the tool's fixed key list, which does not
    contain "error", or an HttpError was absorbed and the result is the error
    mapping; so the result holds a mapping with the key "error" exactly when
    the call failed. *)
Theorem success_keys_exclude_error
    (env : Env) (c : tool_call) (st : State) (out : json) :
  fst (dispatch env c st) = Ok out ->
  ~ In "error" (success_keys c) /\
  ((exists reply st',
      remote_reply env c st = (Ok reply, st') /\
      Forall (fun record => keys record = Some (success_keys c)) (records out) /\
      existsb (has_key "error") (records out) = false)
   \/
   (exists detail st',
      remote_reply env c st = (Raise (HttpError detail), st') /\
      records out = [ error_object detail ] /\
      existsb (has_key "error") (records out) = true)).
Proof.
  intros H. split; [apply error_not_a_success_key |].
  destruct (dispatch_ok env c st out H)
    as [(reply & st' & Hr & Hn) | (detail & st' & Hr & ->)].
  - left. exists reply, st'. split; [exact Hr |].
    destruct (normalize_pairs c reply out Hn) as (rs & _ & Hall).
    assert (Hkeys : Forall (fun record => keys record = Some (success_keys c)) (records out)).
    { induction Hall as [| resource record rs' outs Hrec _ IH]; constructor; [| exact IH].
      destruct (record_of_defaults c resource record Hrec) as (fields & _ & Hk & _).
      exact Hk. }
    split; [exact Hkeys |].
    apply existsb_never. intros record Hin.
    apply (success_record_has_no_error c).
    rewrite Forall_forall in Hkeys. apply Hkeys. exact Hin.
  - right. exists detail, st'. split; [exact Hr |].
    destruct c; split; reflexivity.
Qed.

Lemma success_keys_exclude_error_witness :
  ~ In "error" (success_keys ListCalendars) /\
  ((exists reply st',
      remote_reply (sample_env live_credentials (Ok (listing [ bare_calendar ])))
        ListCalendars logged_in = (Ok reply, st') /\
      Forall (fun record => keys record = Some (success_keys ListCalendars))
        (records (JList [ bare_calendar_record ])) /\
      existsb (has_key "error") (records (JList [ bare_calendar_record ])) = false)
   \/
   (exists detail st',
      remote_reply (sample_env live_credentials (Ok (listing [ bare_calendar ])))
        ListCalendars logged_in = (Raise (HttpError detail), st') /\
      records (JList [ bare_calendar_record ]) = [ error_object detail ] /\
      existsb (has_key "error") (records (JList [ bare_calendar_record ])) = true)).
Proof.
  apply (success_keys_exclude_error
           (sample_env live_credentials (Ok (listing [ bare_calendar ])))
           ListCalendars logged_in).
  reflexivity.
Defined.

(** ** Defaults for absent provider fields *)

(** C2 (as stated, refuted): get_event_details returns a null [id] when the
    provider's event carries none, and create_event returns a null title and
    a null permalink where the claim promises "No title" and the empty
    string. *)
Lemma absent_id_and_created_title_are_null :
  (exists out,
     fst (dispatch (sample_env live_credentials (Ok nameless))
            (GetEventDetails "evt" "primary") logged_in) = Ok out /\
     field "id" out = Some JNull)
  /\
  (exists out,
     fst (dispatch (sample_env live_credentials (Ok nameless))
            (CreateEvent "Standup" "2024-01-01T09:00:00Z" "2024-01-01T10:00:00Z"
               "" "" None "primary") logged_in) = Ok out /\
     field "summary" out = Some JNull /\
     field "html_link" out = Some JNull).
Proof.
  split; eexists; repeat split; reflexivity.
Qed.

(** C2 (amended): for every tool and every provider reply the tool normalises,
    each returned mapping has every key of the tool's fixed key list, and each
    provider field that is absent is replaced by the fallback the tool's code
    names: "No title" for the title in the four event-reading tools, the
    empty string for description, location and permalink there, the empty
    sequence for the attendee list, and null for the fields read without a
    fallback (the id everywhere; title and permalink in create_event). *)
Theorem absent_fields_take_code_defaults
    (env : Env) (c : tool_call) (st st' : State) (reply out : json) :
  remote_reply env c st = (Ok reply, st') ->
  fst (dispatch env c st) = Ok out ->
  exists rs,
    resources c reply = Ok rs /\
    Forall2 (defaults_applied c) rs (records out).
Proof.
  intros Hr H.
  rewrite (dispatch_replied _ _ _ _ _ Hr) in H. simpl in H.
  destruct (normalize_pairs c reply out H) as (rs & Hrs & Hall).
  exists rs. split; [exact Hrs |].
  apply (Forall2_weaken (fun resource record => record_of c resource = Ok record));
    [apply record_of_defaults | exact Hall].
Qed.

Lemma absent_fields_take_code_defaults_witness :
  exists out rs,
    fst (dispatch (sample_env live_credentials (Ok (listing [ nameless; standup ])))
           (ListUpcomingEvents 10 "primary") logged_in) = Ok out /\
    resources (ListUpcomingEvents 10 "primary") (listing [ nameless; standup ]) = Ok rs /\
    Forall2 (defaults_applied (ListUpcomingEvents 10 "primary")) rs (records out).
Proof.
  eexists.
  destruct (absent_fields_take_code_defaults
              (sample_env live_credentials (Ok (listing [ nameless; standup ])))
              (ListUpcomingEvents 10 "primary") logged_in
              (Eff.log (Requested (request_of "2024-01-01T00:00:00+00:00"
                                     (ListUpcomingEvents 10 "primary"))) logged_in)
              (listing [ nameless; standup ]) _ eq_refl eq_refl)
    as (rs & Hrs & Hall).
  exists rs. split; [reflexivity |]. split; [exact Hrs | exact Hall].
Defined.

(** ** Start and end *)

(** C3 (as stated, refuted): create_event returns a null [start] for an event
    whose start part carries only the all-day value, and get_event_details
    returns a null [start] for an event whose start part carries neither
    value. *)
Lemma start_can_be_null :
  (exists out,
     fst (dispatch (sample_env live_credentials (Ok holiday))
            (CreateEvent "Holiday" "2024-01-01T00:00:00Z" "2024-01-02T00:00:00Z"
               "" "" None "primary") logged_in) = Ok out /\
     field "start" holiday = Some (JObj [ ("date", JStr "2024-01-01") ]) /\
     field "start" out = Some JNull)
  /\
  (exists out,
     fst (dispatch (sample_env live_credentials (Ok timeless))
            (GetEventDetails "evt5" "primary") logged_in) = Ok out /\
     field "start" out = Some JNull).
Proof.
  split; eexists; repeat split; reflexivity.
Qed.

(** C3 (amended): for the five tools that return events and every provider
    reply the tool normalises, each event's start and end parts are mappings,
    and the returned [start] and [end] are, in list_upcoming_events,
    get_event_details, search_events and get_events_in_date_range, the timed
    value when its key is present, otherwise the all-day value when its key is
    present, otherwise null; in create_event, the timed value when its key is
    present and null otherwise. *)
Theorem start_end_prefer_timed
    (env : Env) (c : tool_call) (st st' : State) (reply out : json) :
  returns_events c = true ->
  remote_reply env c st = (Ok reply, st') ->
  fst (dispatch env c st) = Ok out ->
  exists rs,
    resources c reply = Ok rs /\
    Forall2 (times_extracted c) rs (records out).
Proof.
  intros Hev Hr H.
  rewrite (dispatch_replied _ _ _ _ _ Hr) in H. simpl in H.
  destruct (normalize_pairs c reply out H) as (rs & Hrs & Hall).
  exists rs. split; [exact Hrs |].
  apply (Forall2_weaken (fun resource record => record_of c resource = Ok record));
    [intros resource record; apply record_of_times; exact Hev | exact Hall].
Qed.

Lemma start_end_prefer_timed_witness :
  exists out rs,
    fst (dispatch (sample_env live_credentials (Ok (listing [ holiday; standup ])))
           (SearchEvents "day" 10 "primary") logged_in) = Ok out /\
    resources (SearchEvents "day" 10 "primary") (listing [ holiday; standup ]) = Ok rs /\
    Forall2 (times_extracted (SearchEvents "day" 10 "primary")) rs (records out).
Proof.
  eexists.
  destruct (start_end_prefer_timed
              (sample_env live_credentials (Ok (listing [ holiday; standup ])))
              (SearchEvents "day" 10 "primary") logged_in
              (Eff.log (Requested (request_of "2024-01-01T00:00:00+00:00"
                                     (SearchEvents "day" 10 "primary"))) logged_in)
              (listing [ holiday; standup ]) _ eq_refl eq_refl eq_refl)
    as (rs & Hrs & Hall).
  exists rs. split; [reflexivity |]. split; [exact Hrs | exact Hall].
Defined.

(** ** create_event's result *)

(** C5 (as stated, refuted): create_event succeeds with status "created" and a
    null [id] when the provider's reply carries no id; and when the remote call
    fails with an exception that is not an HttpError, it returns no mapping at
    all. *)
Lemma created_without_id :
  (exists out,
     fst (create_event (sample_env live_credentials (Ok nameless))
            "Standup" "2024-01-01T09:00:00Z" "2024-01-01T10:00:00Z" "" "" None "primary"
            logged_in) = Ok out /\
     field "status" out = Some (JStr "created") /\
     field "id" out = Some JNull)
  /\
  fst (create_event (sample_env live_credentials (Raise (ExternalError "ServerNotFoundError")))
         "Standup" "2024-01-01T09:00:00Z" "2024-01-01T10:00:00Z" "" "" None "primary"
         logged_in) = Raise (ExternalError "ServerNotFoundError").
Proof.
  split; [eexists; repeat split; reflexivity | reflexivity].
Qed.

(** C5 (amended): whenever create_event returns a value, either the provider
    replied with an event mapping, and then [status] is "created" and [id] is
    the reply's id as it stands (null when the reply has none), or the remote
    call raised an HttpError, and then the result is the error mapping, which
    has neither an [id] nor a [status] key; so [status] is "created" only on
    success. *)
Theorem create_event_outcomes
    (env : Env) (summary start_datetime end_datetime description location : string)
    (attendees : option (list string)) (calendar_id : string) (st : State) (out : json) :
  fst (create_event env summary start_datetime end_datetime description location attendees
         calendar_id st) = Ok out ->
  (exists fields st',
     remote_reply env
       (CreateEvent summary start_datetime end_datetime description location attendees
          calendar_id) st = (Ok (JObj fields), st') /\
     field "status" out = Some (JStr "created") /\
     field "id" out = Some (match Py.lookup "id" fields with
                            | Some id => id
                            | None => JNull
                            end))
  \/
  (exists detail st',
     remote_reply env
       (CreateEvent summary start_datetime end_datetime description location attendees
          calendar_id) st = (Raise (HttpError detail), st') /\
     out = error_object detail /\
     has_key "id" out = false /\
     has_key "status" out = false).
Proof.
  intros H.
  destruct (dispatch_ok env
              (CreateEvent summary start_datetime end_datetime description location attendees
                 calendar_id) st out H)
    as [(reply & st' & Hr & Hn) | (detail & st' & Hr & ->)].
  - left. simpl in Hn.
    destruct reply as [| b | n | s | items | fields]; try discriminate Hn.
    exists fields, st'. split; [exact Hr |].
    unfold created_event in Hn. invert_binds Hn. injection Hn as <-.
    split; [reflexivity |].
    simpl in E. simpl.
    destruct (Py.lookup "id" fields) as [id |]; injection E as <-; reflexivity.
  - right. exists detail, st'. repeat split; try reflexivity. exact Hr.
Qed.

Lemma create_event_outcomes_witness :
  (exists fields st',
     remote_reply (sample_env live_credentials (Raise (HttpError "403 Forbidden")))
       (CreateEvent "Standup" "2024-01-01T09:00:00Z" "2024-01-01T10:00:00Z" "" "" None
          "primary") logged_in = (Ok (JObj fields), st') /\
     field "status" (error_object "403 Forbidden") = Some (JStr "created") /\
     field "id" (error_object "403 Forbidden")
       = Some (match Py.lookup "id" fields with
               | Some id => id
               | None => JNull
               end))
  \/
  (exists detail st',
     remote_reply (sample_env live_credentials (Raise (HttpError "403 Forbidden")))
       (CreateEvent "Standup" "2024-01-01T09:00:00Z" "2024-01-01T10:00:00Z" "" "" None
          "primary") logged_in = (Raise (HttpError detail), st') /\
     error_object "403 Forbidden" = error_object detail /\
     has_key "id" (error_object "403 Forbidden") = false /\
     has_key "status" (error_object "403 Forbidden") = false).
Proof.
  apply (create_event_outcomes
           (sample_env live_credentials (Raise (HttpError "403 Forbidden")))
           "Standup" "2024-01-01T09:00:00Z" "2024-01-01T10:00:00Z" "" "" None "primary"
           logged_in).
  reflexivity.
Defined.

(** ** Date range *)

Lemma listed_event_attendees resource record :
  listed_event resource = Ok record -> attendees_flattened resource record.
Proof.
  intros H. unfold listed_event in H. invert_binds H. injection H as <-.
  unfold attendee_emails in E5. invert_binds E5. injection E5 as <-.
  exists v8, v9. split; [| split].
  - rewrite E7. exact E8.
  - reflexivity.
  - apply for_each_ok. exact E9.
Qed.

(** C8 (as stated, refuted): for the day 2024-01-01, get_events_in_date_range
    returns an event that started at 22:00 the evening before, when the
    provider's reply holds it (events.list matches timeMin against the end of
    an event, not its start). *)
Lemma date_range_returns_earlier_start :
  exists out,
    fst (get_events_in_date_range (sample_env live_credentials (Ok (listing [ overnight ])))
           "2024-01-01T00:00:00Z" "2024-01-02T00:00:00Z" "primary" 100 logged_in) = Ok out /\
    map (field "start") (records out) = [ Some (JStr "2023-12-31T22:00:00Z") ] /\
    forallb (starts_within "2024-01-01T00:00:00Z" "2024-01-02T00:00:00Z") (records out)
      = false.
Proof.
  eexists. repeat split; reflexivity.
Qed.

(** C8 (amended): get_events_in_date_range sends start_date and end_date to
    the provider as timeMin and timeMax of one events.list request and, when
    it returns a value for the provider's reply, returns one record for every
    item of the reply, in the reply's order and without comparing any start
    with the bounds; each record's [attendees] is the sequence of the
    attendees' email values themselves (null for an attendee without one),
    not of mappings built from them. *)
Theorem date_range_forwards_bounds
    (env : Env) (start_date end_date calendar_id : string) (max_results : Z)
    (st st1 : State) (service : Service) (reply out : json) :
  get_calendar_service env st = (Ok service, st1) ->
  execute env (trace st1) service
    (EventsList {| calendarId := calendar_id; timeMin := Some start_date;
                   timeMax := Some end_date; q := None; maxResults := max_results;
                   singleEvents := true; orderBy := "startTime" |}) = Ok reply ->
  fst (get_events_in_date_range env start_date end_date calendar_id max_results st) = Ok out ->
  exists items,
    trace (snd (get_events_in_date_range env start_date end_date calendar_id max_results st))
      = Requested
          (EventsList {| calendarId := calendar_id; timeMin := Some start_date;
                         timeMax := Some end_date; q := None; maxResults := max_results;
                         singleEvents := true; orderBy := "startTime" |})
        :: trace st1 /\
    (i <- Py.get reply "items" (JList []) ;; Py.iter i)%pure = Ok items /\
    List.length (records out) = List.length items /\
    Forall2 (fun resource record =>
               listed_event resource = Ok record /\ attendees_flattened resource record)
      items (records out).
Proof.
  intros Hs Hx H.
  assert (Hr : remote_reply env
                 (GetEventsInDateRange start_date end_date calendar_id max_results) st
               = (Ok reply, Eff.log (Requested
                    (request_of (utcnow env (trace st1))
                       (GetEventsInDateRange start_date end_date calendar_id max_results)))
                    st1)).
  { unfold remote_reply, Eff.bind, now_isoformat, run_request. rewrite Hs. simpl.
    rewrite Hx. reflexivity. }
  change (fst (dispatch env (GetEventsInDateRange start_date end_date calendar_id max_results)
                 st) = Ok out) in H.
  change (get_events_in_date_range env start_date end_date calendar_id max_results st)
    with (dispatch env (GetEventsInDateRange start_date end_date calendar_id max_results) st).
  rewrite (dispatch_replied _ _ _ _ _ Hr) in *. simpl in H.
  apply format_items_ok in H. destruct H as (items & outs & Hitems & -> & Hall).
  exists items. split; [reflexivity |]. split; [exact Hitems |]. split.
  - simpl. symmetry. apply (Forall2_length Hall).
  - simpl. apply (Forall2_weaken (fun resource record => listed_event resource = Ok record));
      [| exact Hall].
    intros resource record Hrec. split; [exact Hrec | apply listed_event_attendees; exact Hrec].
Qed.

Lemma date_range_forwards_bounds_witness :
  exists out items,
    fst (get_events_in_date_range
           (sample_env live_credentials (Ok (listing [ overnight; standup ])))
           "2024-01-01T00:00:00Z" "2024-01-02T00:00:00Z" "primary" 100 logged_in) = Ok out /\
    trace (snd (get_events_in_date_range
                  (sample_env live_credentials (Ok (listing [ overnight; standup ])))
                  "2024-01-01T00:00:00Z" "2024-01-02T00:00:00Z" "primary" 100 logged_in))
      = Requested
          (EventsList {| calendarId := "primary"; timeMin := Some "2024-01-01T00:00:00Z";
                         timeMax := Some "2024-01-02T00:00:00Z"; q := None; maxResults := 100;
                         singleEvents := true; orderBy := "startTime" |})
        :: trace logged_in /\
    (i <- Py.get (listing [ overnight; standup ]) "items" (JList []) ;; Py.iter i)%pure
      = Ok items /\
    List.length (records out) = List.length items /\
    Forall2 (fun resource record =>
               listed_event resource = Ok record /\ attendees_flattened resource record)
      items (records out).
Proof.
  eexists.
  destruct (date_range_forwards_bounds
              (sample_env live_credentials (Ok (listing [ overnight; standup ])))
              "2024-01-01T00:00:00Z" "2024-01-02T00:00:00Z" "primary" 100
              logged_in logged_in (build "calendar" "v3" live_credentials)
              (listing [ overnight; standup ]) _ eq_refl eq_refl eq_refl)
    as (items & Htrace & Hitems & Hlen & Hall).
  exists items. split; [reflexivity |]. split; [exact Htrace |]. split; [exact Hitems |].
  split; [exact Hlen | exact Hall].
Defined.

(** * Further properties of the code *)

(** ** The credential step, path by path *)

Lemma valid_token_is_used_untouched_aux
    (env : Env) (st : State) (content : string) (c : Credentials) :
  token_json st = Some content ->
  from_authorized_user_file env content = Ok c ->
  valid c = true ->
  get_calendar_service env st = (Ok (build "calendar" "v3" c), st).
Proof.
  intros Hfile Hload Hvalid.
  unfold get_calendar_service, Eff.bind, load_token.
  rewrite Hfile, Hload, Hvalid. reflexivity.
Qed.







(** X4: When refreshing an expired credential fails, get_calendar_service raises
    that exception: token.json is left as it was and the interactive grant is
    not tried as a fallback. *)
Theorem failed_refresh_is_not_retried
    (env : Env) (st : State) (content : string) (c : Credentials) (e : exn) :
  token_json st = Some content ->
  from_authorized_user_file env content = Ok c ->
  expired c = true ->
  Py.truthy_str (refresh_token c) = true ->
  refresh env (trace st) c = Raise e ->
  get_calendar_service env st
  = (Raise e, {| token_json := Some content; trace := Refreshed :: trace st |}).
Proof.
  intros Hfile Hload Hexp Hrt Hrefresh.
  unfold get_calendar_service, Eff.bind, load_token, do_refresh, Eff.log.
  rewrite Hfile, Hload. unfold valid. rewrite Hexp, Hrt.
  destruct (token c); simpl; rewrite Hrefresh, Hfile; reflexivity.
Qed.

Lemma failed_refresh_is_not_retried_witness :
  get_calendar_service revoked_env logged_in
  = (Raise (ExternalError "RefreshError"),
     {| token_json := Some "token=ya29"; trace := [ Refreshed ] |}).
Proof.
  apply (failed_refresh_is_not_retried revoked_env logged_in "token=ya29" stale_credentials);
    reflexivity.
Defined.


Lemma second_call_aux
    (env : Env) (st st1 : State) (service : Service) :
  get_calendar_service env st = (Ok service, st1) ->
  valid (credentials service) = true ->
  from_authorized_user_file env (to_json env (credentials service))
    = Ok (credentials service) ->
  get_calendar_service env st1 = (Ok service, st1).
Proof.
  intros Hfirst Hvalid Hback.
  assert (Hwritten : forall c tr,
            valid c = true -> from_authorized_user_file env (to_json env c) = Ok c ->
            get_calendar_service env {| token_json := Some (to_json env c); trace := tr |}
            = (Ok (build "calendar" "v3" c),
               {| token_json := Some (to_json env c); trace := tr |})).
  { intros c tr Hv Hb.
    apply (valid_token_is_used_untouched_aux env
             {| token_json := Some (to_json env c); trace := tr |} (to_json env c) c
             eq_refl Hb Hv). }
  revert Hfirst.
  unfold get_calendar_service at 1.
  unfold Eff.bind, load_token, do_refresh, do_grant, write_token, Eff.log, Eff.ret.
  destruct st as [file tr]. simpl.
  destruct file as [content |]; simpl.
  - destruct (from_authorized_user_file env content) as [c | e] eqn:Hload; simpl;
      [| discriminate].
    destruct (valid c) eqn:Hc; simpl.
    + intros H. injection H as <- <-.
      apply (valid_token_is_used_untouched_aux env
               {| token_json := Some content; trace := tr |} content c eq_refl Hload Hc).
    + destruct (expired c && Py.truthy_str (refresh_token c)); simpl.
      * destruct (refresh env tr c) as [c' | e]; simpl; [| discriminate].
        destruct (token_write env (Refreshed :: tr) (to_json env c')); simpl;
          try discriminate.
        intros H. injection H as <- <-. apply Hwritten; assumption.
      * destruct (from_client_secrets_file env tr) as [flow | e]; simpl; [| discriminate].
        destruct (run_local_server env tr) as [c' | e]; simpl; [| discriminate].
        destruct (token_write env (Granted :: tr) (to_json env c')); simpl;
          try discriminate.
        intros H. injection H as <- <-. apply Hwritten; assumption.
  - destruct (from_client_secrets_file env tr) as [flow | e]; simpl; [| discriminate].
    destruct (run_local_server env tr) as [c' | e]; simpl; [| discriminate].
    destruct (token_write env (Granted :: tr) (to_json env c')); simpl;
      try discriminate.
    intros H. injection H as <- <-. apply Hwritten; assumption.
Qed.

(** X6: Once get_calendar_service has returned a service on a valid credential,
    and the credential library reads back what it serialises, the next call
    returns the same service and does nothing: no refresh, no grant, no
    write. *)
Theorem second_call_reuses_credential
    (env : Env) (st st1 : State) (service : Service) :
  get_calendar_service env st = (Ok service, st1) ->
  valid (credentials service) = true ->
  from_authorized_user_file env (to_json env (credentials service))
    = Ok (credentials service) ->
  get_calendar_service env st1 = (Ok service, st1).
Proof.
  apply second_call_aux.
Qed.

Lemma second_call_reuses_credential_witness :
  get_calendar_service (round_trip_env (Ok standup))
    {| token_json := Some "token=ya29.live";
       trace := [ Persisted "token=ya29.live"; Refreshed ] |}
  = (Ok (build "calendar" "v3" live_credentials),
     {| token_json := Some "token=ya29.live";
        trace := [ Persisted "token=ya29.live"; Refreshed ] |}).
Proof.
  apply (second_call_reuses_credential (round_trip_env (Ok standup)) logged_in);
    reflexivity.
Defined.

(** ** What a tool call does to the outside world *)

Lemma dispatch_state env c st :
  snd (dispatch env c st) = snd (remote_reply env c st).
Proof.
  rewrite dispatch_factor.
  unfold Eff.try_except_HttpError, Eff.bind, Eff.lift, Eff.ret.
  destruct (remote_reply env c st) as [[reply | e] st']; simpl.
  - destruct (normalize c reply) as [v | [ ] ]; reflexivity.
  - destruct e; reflexivity.
Qed.

Lemma one_request_aux
    (env : Env) (c : tool_call) (st st1 : State) (service : Service) :
  get_calendar_service env st = (Ok service, st1) ->
  snd (dispatch env c st)
  = {| token_json := token_json st1;
       trace := Requested (request_of (utcnow env (trace st1)) c) :: trace st1 |}.
Proof.
  intros Hs. rewrite dispatch_state.
  unfold remote_reply, Eff.bind, now_isoformat, run_request. rewrite Hs. simpl.
  reflexivity.
Qed.

(** X7: After a successful credential step every tool calls [execute()] exactly
    once, with the request built from its arguments (and, for
    list_upcoming_events, from the clock read after the credential step), and
    changes nothing else, whatever the provider answers and whether or not the
    reply can be normalised: no retry, no second page, no write. *)
Theorem one_request_per_call
    (env : Env) (c : tool_call) (st st1 : State) (service : Service) :
  get_calendar_service env st = (Ok service, st1) ->
  snd (dispatch env c st)
  = {| token_json := token_json st1;
       trace := Requested (request_of (utcnow env (trace st1)) c) :: trace st1 |}.
Proof.
  apply one_request_aux.
Qed.

Lemma one_request_per_call_witness :
  snd (dispatch (sample_env stale_credentials (Ok (listing [ startless ])))
         (ListUpcomingEvents 5 "work") logged_in)
  = {| token_json := Some "token=ya29.live";
       trace :=
         [ Requested
             (EventsList {| calendarId := "work";
                            timeMin := Some "2024-01-01T00:00:00+00:00"; timeMax := None;
                            q := None; maxResults := 5; singleEvents := true;
                            orderBy := "startTime" |});
           Persisted "token=ya29.live"; Refreshed ] |}.
Proof.
  apply (one_request_per_call (sample_env stale_credentials (Ok (listing [ startless ])))
           (ListUpcomingEvents 5 "work") logged_in
           {| token_json := Some "token=ya29.live";
              trace := [ Persisted "token=ya29.live"; Refreshed ] |}
           (build "calendar" "v3" live_credentials)).
  reflexivity.
Defined.

(** X8: When the credential step raises, no tool sends a request: the call ends in
    the state the credential step left, raising the same exception, or, had
    the step raised an HttpError, returning the tool's error result. *)
Theorem failed_credential_step_sends_nothing
    (env : Env) (c : tool_call) (st st1 : State) (e : exn) :
  get_calendar_service env st = (Raise e, st1) ->
  dispatch env c st
  = (match e with
     | HttpError detail => Ok (failure c detail)
     | _ => Raise e
     end, st1).
Proof.
  intros Hs.
  assert (Hr : remote_reply env c st = (Raise e, st1)).
  { unfold remote_reply, Eff.bind. rewrite Hs. reflexivity. }
  destruct e;
    first [ apply dispatch_http_error; exact Hr
          | apply dispatch_other_error; [exact Hr | reflexivity] ].
Qed.

Lemma failed_credential_step_sends_nothing_witness :
  dispatch revoked_env (CreateEvent "Standup" "2024-01-01T09:00:00Z" "2024-01-01T09:15:00Z"
                          "" "" None "primary") logged_in
  = (Raise (ExternalError "RefreshError"),
     {| token_json := Some "token=ya29"; trace := [ Refreshed ] |}).
Proof.
  apply (failed_credential_step_sends_nothing revoked_env
           (CreateEvent "Standup" "2024-01-01T09:00:00Z" "2024-01-01T09:15:00Z"
              "" "" None "primary")
           logged_in {| token_json := Some "token=ya29"; trace := [ Refreshed ] |}
           (ExternalError "RefreshError")).
  reflexivity.
Defined.

(** ** Listings *)

(** X9: A list-returning tool that returns a value for a reply returns a sequence
    with exactly one record per item of the reply, in the reply's order, each
    computed from its item alone: nothing is dropped, reordered or cut to
    max_results on this side. *)
Theorem listing_maps_items
    (env : Env) (c : tool_call) (st st' : State) (reply out : json) :
  returns_list c = true ->
  remote_reply env c st = (Ok reply, st') ->
  fst (dispatch env c st) = Ok out ->
  exists items outs,
    resources c reply = Ok items /\
    out = JList outs /\
    map (record_of c) items = map Ok outs /\
    List.length outs = List.length items.
Proof.
  intros Hl Hr H.
  rewrite (dispatch_replied _ _ _ _ _ Hr) in H. simpl in H.
  rewrite (normalize_listing c reply Hl) in H.
  apply pure_bind_ok in H. destruct H as (items & Hitems & H).
  apply pure_bind_ok in H. destruct H as (outs & Houts & H).
  injection H as <-.
  exists items, outs. split; [exact Hitems |]. split; [reflexivity |].
  apply for_each_map in Houts. split; [exact Houts |].
  apply (f_equal (@List.length _)) in Houts. rewrite !length_map in Houts.
  symmetry. exact Houts.
Qed.

Lemma listing_maps_items_witness :
  exists items outs,
    resources (SearchEvents "a" 1 "primary") (listing [ standup; holiday; overnight ])
      = Ok items /\
    JList [ JObj [ ("id", JStr "evt1"); ("summary", JStr "Standup");
                   ("start", JStr "2024-01-01T09:00:00Z");
                   ("end", JStr "2024-01-01T09:15:00Z"); ("description", JStr "");
                   ("location", JStr ""); ("html_link", JStr "") ];
            JObj [ ("id", JStr "evt3"); ("summary", JStr "No title");
                   ("start", JStr "2024-01-01"); ("end", JStr "2024-01-02");
                   ("description", JStr ""); ("location", JStr "");
                   ("html_link", JStr "") ];
            JObj [ ("id", JStr "evt4"); ("summary", JStr "Night shift");
                   ("start", JStr "2023-12-31T22:00:00Z");
                   ("end", JStr "2024-01-01T06:00:00Z"); ("description", JStr "");
                   ("location", JStr ""); ("html_link", JStr "") ] ]
      = JList outs /\
    map (record_of (SearchEvents "a" 1 "primary")) items = map Ok outs /\
    List.length outs = List.length items.
Proof.
  apply (listing_maps_items
           (sample_env live_credentials (Ok (listing [ standup; holiday; overnight ])))
           (SearchEvents "a" 1 "primary") logged_in
           (Eff.log (Requested (request_of "2024-01-01T00:00:00+00:00"
                                  (SearchEvents "a" 1 "primary"))) logged_in));
    reflexivity.
Defined.

(** X10: A reply without an [items] field, or with an empty one, is an empty
    listing: the four list-returning tools return the empty sequence. *)
Theorem no_items_is_empty_listing
    (env : Env) (c : tool_call) (st st' : State) (fields : list (string * json)) :
  returns_list c = true ->
  remote_reply env c st = (Ok (JObj fields), st') ->
  Py.lookup "items" fields = None \/ Py.lookup "items" fields = Some (JList []) ->
  fst (dispatch env c st) = Ok (JList []).
Proof.
  intros Hl Hr Hitems.
  rewrite (dispatch_replied _ _ _ _ _ Hr). simpl.
  rewrite (normalize_listing c _ Hl). unfold resources. rewrite Hl.
  unfold Pure.bind, Py.get.
  destruct Hitems as [-> | ->]; reflexivity.
Qed.

Lemma no_items_is_empty_listing_witness :
  fst (dispatch (sample_env live_credentials (Ok (JObj [ ("kind", JStr "calendar#events") ])))
         (GetEventsInDateRange "2024-01-01T00:00:00Z" "2024-01-02T00:00:00Z" "primary" 100)
         logged_in)
  = Ok (JList []).
Proof.
  apply (no_items_is_empty_listing
           (sample_env live_credentials (Ok (JObj [ ("kind", JStr "calendar#events") ])))
           (GetEventsInDateRange "2024-01-01T00:00:00Z" "2024-01-02T00:00:00Z" "primary" 100)
           logged_in
           (Eff.log (Requested (request_of "2024-01-01T00:00:00+00:00"
                       (GetEventsInDateRange "2024-01-01T00:00:00Z" "2024-01-02T00:00:00Z"
                          "primary" 100))) logged_in)
           [ ("kind", JStr "calendar#events") ]);
    [reflexivity | reflexivity | left; reflexivity].
Defined.

(** X11: One item that cannot be normalised fails the whole listing: the tool
    raises the exception of the first such item and returns none of the
    records of the items around it. *)
Theorem bad_item_fails_listing
    (env : Env) (c : tool_call) (st st' : State) (reply : json)
    (good : list json) (bad : json) (rest : list json) (e : exn) :
  returns_list c = true ->
  remote_reply env c st = (Ok reply, st') ->
  resources c reply = Ok (good ++ bad :: rest) ->
  Forall (fun item => exists record, record_of c item = Ok record) good ->
  record_of c bad = Raise e ->
  fst (dispatch env c st) = Raise e.
Proof.
  intros Hl Hr Hitems Hgood Hbad.
  rewrite (dispatch_replied _ _ _ _ _ Hr). simpl.
  rewrite (normalize_listing c _ Hl). rewrite Hitems. simpl.
  rewrite (for_each_first_failure _ _ _ _ _ Hgood Hbad). reflexivity.
Qed.

Lemma bad_item_fails_listing_witness :
  fst (dispatch (sample_env live_credentials (Ok (listing [ standup; startless; holiday ])))
         (ListUpcomingEvents 10 "primary") logged_in)
  = Raise (KeyError "start").
Proof.
  apply (bad_item_fails_listing
           (sample_env live_credentials (Ok (listing [ standup; startless; holiday ])))
           (ListUpcomingEvents 10 "primary") logged_in
           (Eff.log (Requested (request_of "2024-01-01T00:00:00+00:00"
                                  (ListUpcomingEvents 10 "primary"))) logged_in)
           (listing [ standup; startless; holiday ])
           [ standup ] startless [ holiday ] (KeyError "start"));
    try reflexivity.
  constructor; [eexists; reflexivity | constructor].
Defined.

(** ** Which replies make a tool return *)

(** X12: Once the provider has replied, a tool returns a value exactly when the
    reply is one it accepts: every resource in it is a mapping whose start and
    end parts (for the event tools) are mappings, whose attendees (where the
    tool reads them) are absent or range over mappings, and whose creator and
    organizer (in get_event_details) are absent or mappings; for a listing the
    reply itself is a mapping whose items are absent or can be iterated.
    On every other reply the tool raises. *)
Theorem tool_returns_iff_reply_accepted
    (env : Env) (c : tool_call) (st st' : State) (reply : json) :
  remote_reply env c st = (Ok reply, st') ->
  (exists out, fst (dispatch env c st) = Ok out) <-> accepts c reply = true.
Proof.
  intros Hr. rewrite (dispatch_replied _ _ _ _ _ Hr). simpl. apply normalize_iff.
Qed.

Lemma tool_returns_iff_reply_accepted_witness :
  (exists out,
     fst (dispatch (sample_env live_credentials (Ok orphan))
            (GetEventDetails "evt6" "primary") logged_in) = Ok out)
  <-> accepts (GetEventDetails "evt6" "primary") orphan = true.
Proof.
  apply (tool_returns_iff_reply_accepted (sample_env live_credentials (Ok orphan))
           (GetEventDetails "evt6" "primary") logged_in
           (Eff.log (Requested (request_of "2024-01-01T00:00:00+00:00"
                                  (GetEventDetails "evt6" "primary"))) logged_in)).
  reflexivity.
Defined.

(** X13: In the five event tools an event without a [start] part raises
    KeyError("start"), an event whose [start] part is not a mapping raises
    AttributeError, and an event with a proper [start] but no [end] raises
    KeyError("end"). *)
Theorem start_and_end_are_required
    (c : tool_call) (fields : list (string * json)) :
  returns_events c = true ->
  (Py.lookup "start" fields = None ->
   record_of c (JObj fields) = Raise (KeyError "start"))
  /\ (forall v, Py.lookup "start" fields = Some v -> is_mapping v = false ->
      record_of c (JObj fields) = Raise AttributeError)
  /\ (has_part "start" fields = true -> Py.lookup "end" fields = None ->
      record_of c (JObj fields) = Raise (KeyError "end")).
Proof.
  intros Hev. split; [| split].
  - intros Hstart.
    destruct c; try discriminate Hev; simpl;
      unfold listed_event, event_details, created_event, searched_event;
      rewrite ?get_mapping; cbn [Pure.bind];
      unfold timed_or_all_day, timed_only, Py.getitem; rewrite Hstart; reflexivity.
  - intros v Hstart Hv.
    destruct c; try discriminate Hev; simpl;
      unfold listed_event, event_details, created_event, searched_event;
      rewrite ?get_mapping; cbn [Pure.bind];
      unfold timed_or_all_day, timed_only, Py.getitem; rewrite Hstart;
      destruct v; try discriminate Hv; reflexivity.
  - intros Hstart Hend. apply has_part_lookup in Hstart. destruct Hstart as (part & Hstart).
    pose proof (timed_or_all_day_part _ _ _ Hstart) as Hs1.
    pose proof (timed_only_part _ _ _ Hstart) as Hs2.
    destruct c; try discriminate Hev; simpl;
      unfold listed_event, event_details, created_event, searched_event;
      rewrite ?get_mapping; cbn [Pure.bind];
      rewrite ?Hs1, ?Hs2; cbn [Pure.bind]; rewrite ?get_mapping; cbn [Pure.bind];
      unfold timed_or_all_day, timed_only, Py.getitem; rewrite Hend; reflexivity.
Qed.

Lemma start_and_end_are_required_witness :
  (Py.lookup "start" [ ("id", JStr "evt2"); ("end", timed "2024-01-01T10:00:00Z") ] = None ->
   record_of (GetEventDetails "evt2" "primary") startless = Raise (KeyError "start"))
  /\ (forall v,
        Py.lookup "start" [ ("id", JStr "evt2"); ("end", timed "2024-01-01T10:00:00Z") ]
          = Some v ->
        is_mapping v = false ->
        record_of (GetEventDetails "evt2" "primary") startless = Raise AttributeError)
  /\ (has_part "start" [ ("id", JStr "evt2"); ("end", timed "2024-01-01T10:00:00Z") ] = true ->
      Py.lookup "end" [ ("id", JStr "evt2"); ("end", timed "2024-01-01T10:00:00Z") ] = None ->
      record_of (GetEventDetails "evt2" "primary") startless = Raise (KeyError "end")).
Proof.
  apply (start_and_end_are_required (GetEventDetails "evt2" "primary")
           [ ("id", JStr "evt2"); ("end", timed "2024-01-01T10:00:00Z") ]).
  reflexivity.
Defined.

(** ** What ends up in a record *)

(** X14: A field the provider sends is copied as it stands, a null included: the
    fallback of a [.get] stands in for an absent key only, never for a value
    that is present. *)
Theorem present_fields_are_copied
    (c : tool_call) (fields : list (string * json)) (record : json)
    (src dst : string) (v : json) :
  record_of c (JObj fields) = Ok record ->
  In (src, dst) (copied c) ->
  Py.lookup src fields = Some v ->
  field dst record = Some v.
Proof.
  intros H Hin Hpresent.
  destruct c; simpl in H;
    unfold listed_event, event_details, created_event, searched_event, calendar_record in H;
    invert_binds H; injection H as <-; simpl in Hin.
  all: repeat (destruct Hin as [Hin | Hin]; [injection Hin as <- <- |]);
    try contradiction.
  all: repeat match goal with
              | E : context [Py.get (JObj _) _ _] |- _ => rewrite get_mapping in E
              end;
    rewrite Hpresent in *;
    repeat match goal with
           | E : Ok _ = Ok _ |- _ => injection E as E; subst
           end;
    reflexivity.
Qed.

Lemma present_fields_are_copied_witness :
  field "summary"
    (JObj [ ("id", JStr "evt7"); ("summary", JNull); ("start", JStr "2024-01-01");
            ("end", JStr "2024-01-02"); ("description", JStr ""); ("location", JStr "");
            ("html_link", JStr "") ])
  = Some JNull.
Proof.
  apply (present_fields_are_copied (SearchEvents "x" 10 "primary")
           [ ("id", JStr "evt7"); ("summary", JNull);
             ("start", JObj [ ("date", JStr "2024-01-01") ]);
             ("end", JObj [ ("date", JStr "2024-01-02") ]) ]
           _ "summary" "summary" JNull).
  - reflexivity.
  - simpl. right. left. reflexivity.
  - reflexivity.
Defined.

(** X15: get_event_details returns one attendee mapping per attendee of the event,
    in order, each with exactly the keys email, displayName and
    responseStatus: the email as sent (null when absent), the other two as
    sent or the empty string. An event without attendees gets the empty
    sequence. *)
Theorem attendee_details_shape (fields : list (string * json)) (record : json) :
  event_details (JObj fields) = Ok record ->
  exists people details,
    (a <- Py.get (JObj fields) "attendees" (JList []) ;; Py.iter a)%pure = Ok people /\
    field "attendees" record = Some (JList details) /\
    Forall2
      (fun person detail =>
         exists pf,
           person = JObj pf /\
           detail
           = JObj [ ("email", match Py.lookup "email" pf with
                              | Some v => v | None => JNull end);
                    ("displayName", match Py.lookup "displayName" pf with
                                    | Some v => v | None => JStr "" end);
                    ("responseStatus", match Py.lookup "responseStatus" pf with
                                       | Some v => v | None => JStr "" end) ])
      people details.
Proof.
  intros H. unfold event_details in H. invert_binds H. injection H as <-.
  exists v10, v11. split; [| split].
  - rewrite E9. exact E10.
  - reflexivity.
  - apply for_each_ok in E11.
    apply (Forall2_weaken (fun x y => attendee_detail x = Ok y)); [| exact E11].
    intros person detail Hd.
    pose proof (attendee_detail_needs_mapping _ _ Hd) as Hm.
    destruct person as [| b | n | s | items | pf]; try discriminate Hm.
    exists pf. split; [reflexivity |].
    rewrite attendee_detail_mapping in Hd. injection Hd as <-. reflexivity.
Qed.

Lemma attendee_details_shape_witness :
  exists people details,
    (a <- Py.get standup "attendees" (JList []) ;; Py.iter a)%pure = Ok people /\
    field "attendees"
      (JObj [ ("id", JStr "evt1"); ("summary", JStr "Standup"); ("description", JStr "");
              ("location", JStr ""); ("start", JStr "2024-01-01T09:00:00Z");
              ("end", JStr "2024-01-01T09:15:00Z"); ("created", JNull); ("updated", JNull);
              ("creator", JStr ""); ("organizer", JStr "");
              ("attendees", JList [ JObj [ ("email", JStr "ann@example.com");
                                           ("displayName", JStr "Ann");
                                           ("responseStatus", JStr "") ] ]);
              ("html_link", JStr ""); ("recurring_event_id", JNull);
              ("status", JStr "") ])
    = Some (JList details) /\
    Forall2
      (fun person detail =>
         exists pf,
           person = JObj pf /\
           detail
           = JObj [ ("email", match Py.lookup "email" pf with
                              | Some v => v | None => JNull end);
                    ("displayName", match Py.lookup "displayName" pf with
                                    | Some v => v | None => JStr "" end);
                    ("responseStatus", match Py.lookup "responseStatus" pf with
                                       | Some v => v | None => JStr "" end) ])
      people details.
Proof.
  apply (attendee_details_shape
           [ ("id", JStr "evt1"); ("summary", JStr "Standup");
             ("start", timed "2024-01-01T09:00:00Z"); ("end", timed "2024-01-01T09:15:00Z");
             ("attendees", JList [ JObj [ ("email", JStr "ann@example.com");
                                          ("displayName", JStr "Ann") ] ]) ]).
  reflexivity.
Defined.

(** X16: In a record of get_event_details, creator and organizer are the email of
    the person the event names, and the empty string when the event names
    nobody or the person has no email. *)
Theorem creator_and_organizer_emails (fields : list (string * json)) (record : json) :
  event_details (JObj fields) = Ok record ->
  field "creator" record = Some (email_or_empty "creator" fields) /\
  field "organizer" record = Some (email_or_empty "organizer" fields).
Proof.
  intros H. unfold event_details in H. invert_binds H. injection H as <-.
  apply email_of_value in E7. apply email_of_value in E8. subst.
  split; reflexivity.
Qed.

Lemma creator_and_organizer_emails_witness :
  field "creator"
    (JObj [ ("id", JNull); ("summary", JStr "No title"); ("description", JStr "");
            ("location", JStr ""); ("start", JStr "2024-01-01"); ("end", JStr "2024-01-02");
            ("created", JNull); ("updated", JNull); ("creator", JStr "ann@example.com");
            ("organizer", JStr ""); ("attendees", JList []); ("html_link", JStr "");
            ("recurring_event_id", JNull); ("status", JStr "") ])
  = Some (email_or_empty "creator"
            [ ("start", JObj [ ("date", JStr "2024-01-01") ]);
              ("end", JObj [ ("date", JStr "2024-01-02") ]);
              ("creator", JObj [ ("email", JStr "ann@example.com") ]);
              ("organizer", JObj [ ("displayName", JStr "Bob") ]) ])
  /\
  field "organizer"
    (JObj [ ("id", JNull); ("summary", JStr "No title"); ("description", JStr "");
            ("location", JStr ""); ("start", JStr "2024-01-01"); ("end", JStr "2024-01-02");
            ("created", JNull); ("updated", JNull); ("creator", JStr "ann@example.com");
            ("organizer", JStr ""); ("attendees", JList []); ("html_link", JStr "");
            ("recurring_event_id", JNull); ("status", JStr "") ])
  = Some (email_or_empty "organizer"
            [ ("start", JObj [ ("date", JStr "2024-01-01") ]);
              ("end", JObj [ ("date", JStr "2024-01-02") ]);
              ("creator", JObj [ ("email", JStr "ann@example.com") ]);
              ("organizer", JObj [ ("displayName", JStr "Bob") ]) ]).
Proof.
  apply (creator_and_organizer_emails
           [ ("start", JObj [ ("date", JStr "2024-01-01") ]);
             ("end", JObj [ ("date", JStr "2024-01-02") ]);
             ("creator", JObj [ ("email", JStr "ann@example.com") ]);
             ("organizer", JObj [ ("displayName", JStr "Bob") ]) ]).
  reflexivity.
Defined.

(** X17: An event whose creator (or organizer) is present but is not a mapping, a
    null for one, makes get_event_details raise AttributeError, although the
    rest of the event is in order. *)
Theorem non_mapping_creator_raises
    (fields : list (string * json)) (who : string) (v : json) :
  has_part "start" fields = true ->
  has_part "end" fields = true ->
  who = "creator" \/ who = "organizer" ->
  Py.lookup who fields = Some v ->
  is_mapping v = false ->
  absent_or is_mapping (Py.lookup "creator" fields) = true \/ who = "creator" ->
  event_details (JObj fields) = Raise AttributeError.
Proof.
  intros Hs He Hwho Hv Hnot Hcreator.
  apply has_part_lookup in Hs. destruct Hs as (sp & Hs).
  apply has_part_lookup in He. destruct He as (ep & He).
  unfold event_details.
  rewrite !get_mapping. cbn [Pure.bind].
  rewrite (timed_or_all_day_part _ _ _ Hs). cbn [Pure.bind].
  rewrite (timed_or_all_day_part _ _ _ He). cbn [Pure.bind].
  assert (Hbad : email_of (JObj fields) who = Raise AttributeError).
  { unfold email_of. rewrite get_mapping, Hv. cbn [Pure.bind].
    destruct v; try discriminate Hnot; reflexivity. }
  destruct Hwho as [-> | ->].
  - rewrite Hbad. reflexivity.
  - destruct Hcreator as [Hc | Hc]; [| discriminate Hc].
    apply (proj2 (email_of_iff fields "creator")) in Hc. destruct Hc as (x & Hc).
    rewrite Hc. cbn [Pure.bind]. rewrite Hbad. reflexivity.
Qed.

Lemma non_mapping_creator_raises_witness :
  event_details orphan = Raise AttributeError.
Proof.
  apply (non_mapping_creator_raises
           [ ("id", JStr "evt6"); ("start", timed "2024-01-01T09:00:00Z");
             ("end", timed "2024-01-01T10:00:00Z"); ("creator", JNull) ]
           "creator" JNull);
    try reflexivity.
  - left. reflexivity.
  - right. reflexivity.
Defined.

(** ** create_event's body read back *)

Lemma emails_read_back (emails : list string) :
  Pure.for_each (fun attendee => Py.get attendee "email" JNull)
    (map (fun email => JObj [ ("email", JStr email) ]) emails)
  = Ok (map JStr emails).
Proof.
  induction emails as [| e rest IH]; simpl; [reflexivity |].
  rewrite IH. reflexivity.
Qed.

(** X18: What create_event sends can be read back by the tools: an event resource
    equal to the request body normalises, in create_event to the given title
    and the given start and end, and in the listing tools to the given title,
    times, description and location with the attendee emails as given, in
    order (the empty sequence when none were given). *)
Theorem request_body_reads_back
    (summary start_datetime end_datetime description location : string)
    (attendees : option (list string)) :
  created_event
    (event_body summary start_datetime end_datetime description location attendees)
  = Ok (JObj [ ("id", JNull); ("summary", JStr summary); ("start", JStr start_datetime);
               ("end", JStr end_datetime); ("html_link", JNull);
               ("status", JStr "created") ])
  /\
  listed_event
    (event_body summary start_datetime end_datetime description location attendees)
  = Ok (JObj [ ("id", JNull); ("summary", JStr summary); ("start", JStr start_datetime);
               ("end", JStr end_datetime); ("description", JStr description);
               ("location", JStr location);
               ("attendees",
                JList (map JStr (match attendees with Some l => l | None => [] end)));
               ("html_link", JStr "") ]).
Proof.
  destruct attendees as [[| e rest] |]; split; try reflexivity.
  unfold listed_event, attendee_emails, event_body. simpl.
  rewrite emails_read_back. reflexivity.
Qed.

(** ** The error text *)

(** X19: The error result keeps the provider's error text whole: two calls of a
    tool that absorb HttpErrors and return the same result absorbed errors
    with the same text. *)
Theorem error_result_keeps_text
    (env : Env) (c : tool_call) (st1 st1' st2 st2' : State) (d1 d2 : string) :
  remote_reply env c st1 = (Raise (HttpError d1), st1') ->
  remote_reply env c st2 = (Raise (HttpError d2), st2') ->
  fst (dispatch env c st1) = fst (dispatch env c st2) ->
  d1 = d2.
Proof.
  intros H1 H2 H.
  rewrite (dispatch_http_error _ _ _ _ _ H1), (dispatch_http_error _ _ _ _ _ H2) in H.
  simpl in H. unfold failure, error_object in H.
  destruct (returns_list c); injection H as H; exact H.
Qed.

Lemma error_result_keeps_text_witness : "410 Gone" = "410 Gone".
Proof.
  apply (error_result_keeps_text (sample_env live_credentials (Raise (HttpError "410 Gone")))
           (GetEventDetails "evt1" "primary")
           logged_in
           (Eff.log (Requested (EventsGet "primary" "evt1")) logged_in)
           {| token_json := Some "other"; trace := [ Granted ] |}
           (Eff.log (Requested (EventsGet "primary" "evt1"))
              {| token_json := Some "other"; trace := [ Granted ] |}));
    reflexivity.
Defined.

(** ** Calls in sequence *)

Lemma fast_path_ignores_trace env st service st2 :
  get_calendar_service env st = (Ok service, st) ->
  token_json st2 = token_json st ->
  get_calendar_service env st2 = (Ok service, st2).
Proof.
  assert (Hgrow2 : forall (a b : effect) tr, a :: b :: tr <> tr).
  { intros a b tr H. apply (f_equal (@List.length _)) in H. simpl in H.
    induction (List.length tr) as [| n IH]; [discriminate H |].
    injection H as H. apply IH. exact H. }
  intros H Hfile. revert H.
  unfold get_calendar_service, Eff.bind, load_token, do_refresh, do_grant, write_token,
    Eff.log, Eff.ret.
  rewrite Hfile. destruct st as [file tr]. simpl.
  destruct file as [content |]; simpl.
  - destruct (from_authorized_user_file env content) as [c | e]; simpl; [| discriminate].
    destruct (valid c); simpl.
    + intros H. injection H as <-. reflexivity.
    + destruct (expired c && Py.truthy_str (refresh_token c)); simpl.
      * destruct (refresh env tr c) as [c' | e]; simpl; [| discriminate].
        destruct (token_write env (Refreshed :: tr) (to_json env c')); simpl;
          try discriminate.
        intros H. injection H as _ _ H. exfalso. apply (Hgrow2 _ _ _ H).
      * destruct (from_client_secrets_file env tr) as [flow | e]; simpl; [| discriminate].
        destruct (run_local_server env tr) as [c' | e]; simpl; [| discriminate].
        destruct (token_write env (Granted :: tr) (to_json env c')); simpl;
          try discriminate.
        intros H. injection H as _ _ H. exfalso. apply (Hgrow2 _ _ _ H).
  - destruct (from_client_secrets_file env tr) as [flow | e]; simpl; [| discriminate].
    destruct (run_local_server env tr) as [c' | e]; simpl; [| discriminate].
    destruct (token_write env (Granted :: tr) (to_json env c')); simpl;
      try discriminate.
Qed.

(** X20: Two tool calls in a row authenticate once: when the credential step of
    the first call ends with a valid credential, and the credential library
    reads back what it serialises, the second call finds that credential and
    adds nothing but its own request: no refresh, no grant, no write of
    token.json. *)
Theorem second_tool_call_only_requests
    (env : Env) (c1 c2 : tool_call) (st st1 : State) (service : Service) :
  get_calendar_service env st = (Ok service, st1) ->
  valid (credentials service) = true ->
  from_authorized_user_file env (to_json env (credentials service))
    = Ok (credentials service) ->
  snd (dispatch env c2 (snd (dispatch env c1 st)))
  = {| token_json := token_json st1;
       trace :=
         Requested
           (request_of
              (utcnow env (Requested (request_of (utcnow env (trace st1)) c1) :: trace st1))
              c2)
         :: Requested (request_of (utcnow env (trace st1)) c1)
         :: trace st1 |}.
Proof.
  intros Hs Hvalid Hback.
  rewrite (one_request_aux env c1 st st1 service Hs).
  pose proof (second_call_aux env st st1 service Hs Hvalid Hback) as Hagain.
  set (s1 := {| token_json := token_json st1;
                trace := Requested (request_of (utcnow env (trace st1)) c1) :: trace st1 |}).
  rewrite (one_request_aux env c2 s1 s1 service
             (fast_path_ignores_trace env st1 service s1 Hagain eq_refl)).
  reflexivity.
Qed.

Lemma second_tool_call_only_requests_witness :
  snd (dispatch (round_trip_env (Ok standup)) (GetEventDetails "evt1" "primary")
         (snd (dispatch (round_trip_env (Ok standup)) ListCalendars logged_in)))
  = {| token_json := Some "token=ya29.live";
       trace := [ Requested (EventsGet "primary" "evt1"); Requested CalendarListList;
                  Persisted "token=ya29.live"; Refreshed ] |}.
Proof.
  apply (second_tool_call_only_requests (round_trip_env (Ok standup))
           ListCalendars (GetEventDetails "evt1" "primary") logged_in
           {| token_json := Some "token=ya29.live";
              trace := [ Persisted "token=ya29.live"; Refreshed ] |}
           (build "calendar" "v3" live_credentials));
    reflexivity.
Defined.

(** ** An unreadable token file *)

(** X21: When token.json exists but cannot be loaded, every tool call ends there:
    the loader's exception leaves the tool (or becomes its error result, were
    it an HttpError), with no grant, no write and no request; the interactive
    grant is not used to recover. *)
Theorem unreadable_token_file_ends_call
    (env : Env) (c : tool_call) (st : State) (content : string) (e : exn) :
  token_json st = Some content ->
  from_authorized_user_file env content = Raise e ->
  dispatch env c st
  = (match e with
     | HttpError detail => Ok (failure c detail)
     | _ => Raise e
     end, st).
Proof.
  intros Hfile Hload.
  assert (Hr : remote_reply env c st = (Raise e, st)).
  { unfold remote_reply, get_calendar_service, Eff.bind, load_token.
    rewrite Hfile, Hload. reflexivity. }
  destruct e;
    first [ apply dispatch_http_error; exact Hr
          | apply dispatch_other_error; [exact Hr | reflexivity] ].
Qed.

Lemma unreadable_token_file_ends_call_witness :
  dispatch
    {| from_authorized_user_file := fun _ => Raise (ExternalError "ValueError");
       refresh := fun _ _ => Ok live_credentials;
       from_client_secrets_file := fun _ => Ok tt;
       run_local_server := fun _ => Ok live_credentials;
       token_write := fun _ _ => Written;
       to_json := render;
       execute := fun _ _ _ => Ok standup;
       utcnow := fun _ => "2024-01-01T00:00:00+00:00" |}
    ListCalendars logged_in
  = (Raise (ExternalError "ValueError"), logged_in).
Proof.
  apply (unreadable_token_file_ends_call
           {| from_authorized_user_file := fun _ => Raise (ExternalError "ValueError");
              refresh := fun _ _ => Ok live_credentials;
              from_client_secrets_file := fun _ => Ok tt;
              run_local_server := fun _ => Ok live_credentials;
              token_write := fun _ _ => Written;
              to_json := render;
              execute := fun _ _ _ => Ok standup;
              utcnow := fun _ => "2024-01-01T00:00:00+00:00" |}
           ListCalendars logged_in "token=ya29" (ExternalError "ValueError"));
    reflexivity.
Defined.
